(** * Math Equation Checker: the safe evaluator of [app.py]

    A shallow embedding of [safe_eval], of the answer-checking callbacks
    and of the random-problem generator of [app.py], with the Python
    built-ins they call.

    Python [float] is IEEE 754 binary64.  It is modelled by [spec_float]
    at precision 53 and maximal exponent 1024, whose operations are
    computed on [Z] with rounding to nearest, ties to even.

    Python [str] is modelled by [string], read as the UTF-8 encoding of
    the text.

    The built-ins follow CPython 3.8 to 3.13 on a platform with IEEE
    doubles.  Not modelled: the interpreter's recursion limit and
    memory exhaustion. *)

From Stdlib Require Import ZArith List Bool String Ascii Lia.
From Stdlib Require Import SpecFloat DecimalString.
Import ListNotations.

Local Open Scope string_scope.
Local Open Scope Z_scope.

(** ** binary64 *)

Module F64.

Definition prec : Z := 53.
Definition emax : Z := 1024.

Definition float : Type := spec_float.

Definition add : float -> float -> float := SFadd prec emax.
Definition sub : float -> float -> float := SFsub prec emax.
Definition mul : float -> float -> float := SFmul prec emax.
Definition div : float -> float -> float := SFdiv prec emax.
Definition opp : float -> float := SFopp.
Definition abs : float -> float := SFabs.
Definition eqb : float -> float -> bool := SFeqb.
Definition ltb : float -> float -> bool := SFltb.
Definition leb : float -> float -> bool := SFleb.

Definition pos_zero : float := S754_zero false.
Definition neg_zero : float := S754_zero true.
Definition pos_inf : float := S754_infinity false.
Definition nan : float := S754_nan.

(** The float nearest to the integer [m * 2^e]. *)
Definition of_scaled (m e : Z) : float := binary_normalize prec emax m e false.

Definition of_Z (z : Z) : float := of_scaled z 0.

(** The float nearest to the rational [n / d], [d > 0]. *)
Definition of_ratio (n : Z) (d : positive) : float :=
  match n with
  | Z0 => pos_zero
  | _ =>
    let '(q, e, l) := SFdiv_core_binary prec emax (Z.abs n) 0 (Zpos d) 0 in
    binary_round_aux prec emax (n <? 0) q e l
  end.

Definition is_nan (x : float) : bool :=
  match x with S754_nan => true | _ => false end.

Definition is_inf (x : float) : bool :=
  match x with S754_infinity _ => true | _ => false end.

Definition is_zero (x : float) : bool :=
  match x with S754_zero _ => true | _ => false end.

Definition is_finite (x : float) : bool :=
  match x with
  | S754_zero _ | S754_finite _ _ _ => true
  | S754_infinity _ | S754_nan => false
  end.

Definition sign (x : float) : bool :=
  match x with
  | S754_zero s | S754_infinity s | S754_finite s _ _ => s
  | S754_nan => false
  end.

(** C [copysign(0.0, y)]. *)
Definition zero_with_sign_of (y : float) : float := S754_zero (sign y).

(** A finite float as the exact integer pair [(m, e)] with value
    [m * 2^e]. *)
Definition to_scaled (x : float) : option (Z * Z) :=
  match x with
  | S754_zero _ => Some (0, 0)
  | S754_finite s m e => Some (cond_Zopp s (Zpos m), e)
  | _ => None
  end.

(** C [floor]: exact.  A negative float that is not an integer has a
    floor of at most [-1], so the zero of the first branch is [+0.0]. *)
Definition floor (x : float) : float :=
  match x with
  | S754_finite s m e =>
    if 0 <=? e then x
    else
      let z := Z.shiftr (cond_Zopp s (Zpos m)) (- e) in
      match z with
      | Z0 => S754_zero s
      | _ => of_Z z
      end
  | _ => x
  end.

(** C [x == floor(x)]. *)
Definition is_integer (x : float) : bool := eqb x (floor x).

(** C [fmod]: [x - n*y] with [n] the quotient truncated toward zero;
    the result is exact and has the sign of [x]. *)
Definition fmod (x y : float) : float :=
  match x, y with
  | S754_nan, _ | _, S754_nan => nan
  | S754_infinity _, _ => nan
  | _, S754_zero _ => nan
  | _, S754_infinity _ => x
  | S754_zero _, _ => x
  | S754_finite sx mx ex, S754_finite _ my ey =>
    let e := Z.min ex ey in
    let X := Z.shiftl (Zpos mx) (ex - e) in
    let Y := Z.shiftl (Zpos my) (ey - e) in
    match Z.rem X Y with
    | Z0 => S754_zero sx
    | Zpos r => binary_round prec emax sx r e
    | Zneg _ => nan
    end
  end.

(** [DOUBLE_IS_ODD_INTEGER] of [floatobject.c]:
    [fmod(fabs(x), 2.0) == 1.0]. *)
Definition is_odd_integer (x : float) : bool :=
  eqb (fmod (abs x) (of_Z 2)) (of_Z 1).

End F64.

Abbreviation float := F64.float.

(** ** Python exceptions and results *)

Inductive exn : Type :=
| ValueError (msg : string)
| ZeroDivisionError (msg : string)
| OverflowError (msg : string)
| TypeError (msg : string).

Inductive result (A : Type) : Type :=
| Ok (a : A)
| Raise (e : exn).

Arguments Ok {A} a.
Arguments Raise {A} e.

Definition bind {A B : Type} (r : result A) (k : A -> result B) : result B :=
  match r with
  | Ok a => k a
  | Raise e => Raise e
  end.

Notation "x <- r ;; k" := (bind r (fun x => k))
  (at level 61, r at next level, right associativity).

(** ** The platform

    What [app.py] reaches through the interpreter and is not fixed by
    the language: the C library's [pow], the overflow behaviour of the
    complex power, and the parser and [float()] outside the fragments
    modelled below.  Nothing is assumed about a [host]. *)

Inductive errno : Type := ENONE | ERANGE | EDOM.

Inductive unaryop : Type := UAdd | USub | Not | Invert.

Inductive operator : Type :=
| Add | Sub | Mult | MatMult | Div | Mod | Pow
| LShift | RShift | BitOr | BitXor | BitAnd | FloorDiv.

(** The value of an [ast.Constant]. *)
Inductive constant : Type :=
| CInt (z : Z)
| CBool (b : bool)
| CFloat (f : float)
| CComplex (im : float)
| CStr (s : string)
| CBytes (s : string)
| CNone
| CEllipsis.

(** [ast] nodes.  [Other kind] stands for a node of any class that
    [_eval] does not test for; [kind] is the class name. *)
Inductive node : Type :=
| Expression (body : node)
| Constant (value : constant)
| UnaryOp (op : unaryop) (operand : node)
| BinOp (left : node) (op : operator) (right : node)
| Other (kind : string).

(** The outcome of [ast.parse(expr, mode="eval")]: a tree, or a
    [SyntaxError] [e] given by [str(e)]. *)
Inductive parse_result : Type :=
| ParseOk (tree : node)
| ParseSyntaxError (msg : string).

Record host : Type := {
  (** [ast.parse(_, mode="eval")] on the strings outside [arith_parse] *)
  host_parse : string -> parse_result;
  (** C [pow(x, y)] with the [errno] it leaves *)
  libm_pow : float -> float -> float * errno;
  (** whether [complex.__pow__] overflows on a negative base [x] and a
      fractional exponent [y] *)
  complex_pow_overflows : float -> float -> bool;
  (** [float(s)] on the stripped strings that are not ASCII *)
  host_float : string -> option float
}.

(** ** Python numbers *)

(** The objects a binary operator of [_ALLOWED_BINOPS] returns on two
    floats. *)
Inductive pyobj : Type :=
| PyFloat (f : float)
| PyComplex.

(** [float(n)] for an [int]: [PyLong_AsDouble]. *)
Definition float_of_int (z : Z) : result float :=
  let f := F64.of_Z z in
  if F64.is_inf f
  then Raise (OverflowError "int too large to convert to float")
  else Ok f.

(** [float_div] of [floatobject.c]. *)
Definition float_div (v w : float) : result pyobj :=
  if F64.eqb w F64.pos_zero
  then Raise (ZeroDivisionError "float division by zero")
  else Ok (PyFloat (F64.div v w)).

(** [float_rem] of [floatobject.c]. *)
Definition float_rem (vx wx : float) : result pyobj :=
  if F64.eqb wx F64.pos_zero
  then Raise (ZeroDivisionError "float modulo")
  else
    let m := F64.fmod vx wx in
    let m :=
      if negb (F64.eqb m F64.pos_zero) then
        if xorb (F64.ltb wx F64.pos_zero) (F64.ltb m F64.pos_zero)
        then F64.add m wx else m
      else F64.zero_with_sign_of wx in
    Ok (PyFloat m).

(** [_float_div_mod] of [floatobject.c], the quotient. *)
Definition float_div_mod_quotient (vx wx : float) : float :=
  let m := F64.fmod vx wx in
  let div := F64.div (F64.sub vx m) wx in
  let div :=
    if negb (F64.eqb m F64.pos_zero) then
      if xorb (F64.ltb wx F64.pos_zero) (F64.ltb m F64.pos_zero)
      then F64.sub div (F64.of_Z 1) else div
    else div in
  if negb (F64.eqb div F64.pos_zero) then
    let floordiv := F64.floor div in
    if F64.ltb (F64.of_ratio 1 2) (F64.sub div floordiv)
    then F64.add floordiv (F64.of_Z 1) else floordiv
  else F64.zero_with_sign_of (F64.div vx wx).

(** [float_floor_div] of [floatobject.c]. *)
Definition float_floor_div (vx wx : float) : result pyobj :=
  if F64.eqb wx F64.pos_zero
  then Raise (ZeroDivisionError "float floor division by zero")
  else Ok (PyFloat (float_div_mod_quotient vx wx)).

(** [_Py_ADJUST_ERANGE1]. *)
Definition adjust_erange1 (x : float) (e : errno) : errno :=
  match e with
  | ENONE => if F64.is_inf x then ERANGE else ENONE
  | ERANGE => if F64.eqb x F64.pos_zero then ENONE else ERANGE
  | EDOM => EDOM
  end.

(** [float_pow] of [floatobject.c]. *)
Definition float_pow (H : host) (iv iw : float) : result pyobj :=
  if F64.eqb iw F64.pos_zero then Ok (PyFloat (F64.of_Z 1))
  else if F64.is_nan iv then Ok (PyFloat iv)
  else if F64.is_nan iw
  then Ok (PyFloat (if F64.eqb iv (F64.of_Z 1) then F64.of_Z 1 else iw))
  else if F64.is_inf iw then
    let iv := F64.abs iv in
    if F64.eqb iv (F64.of_Z 1) then Ok (PyFloat (F64.of_Z 1))
    else if Bool.eqb (F64.ltb F64.pos_zero iw) (F64.ltb (F64.of_Z 1) iv)
    then Ok (PyFloat (F64.abs iw))
    else Ok (PyFloat F64.pos_zero)
  else if F64.is_inf iv then
    let iw_is_odd := F64.is_odd_integer iw in
    if F64.ltb F64.pos_zero iw
    then Ok (PyFloat (if iw_is_odd then iv else F64.abs iv))
    else Ok (PyFloat (if iw_is_odd then F64.zero_with_sign_of iv
                      else F64.pos_zero))
  else if F64.eqb iv F64.pos_zero then
    let iw_is_odd := F64.is_odd_integer iw in
    if F64.ltb iw F64.pos_zero
    then Raise (ZeroDivisionError "0.0 cannot be raised to a negative power")
    else Ok (PyFloat (if iw_is_odd then iv else F64.pos_zero))
  else if F64.ltb iv F64.pos_zero && negb (F64.is_integer iw) then
    (* negative numbers raised to fractional powers become complex *)
    if complex_pow_overflows H iv iw
    then Raise (OverflowError "complex exponentiation")
    else Ok PyComplex
  else
    let negate_result :=
      F64.ltb iv F64.pos_zero && F64.is_odd_integer iw in
    let iv := F64.abs iv in
    if F64.eqb iv (F64.of_Z 1)
    then Ok (PyFloat (if negate_result then F64.of_Z (-1) else F64.of_Z 1))
    else
      let '(ix, e) := libm_pow H iv iw in
      let e := adjust_erange1 ix e in
      let ix := if negate_result then F64.opp ix else ix in
      match e with
      | ENONE => Ok (PyFloat ix)
      | ERANGE => Raise (OverflowError "(34, 'Numerical result out of range')")
      | EDOM => Raise (ValueError "(33, 'Numerical argument out of domain')")
      end.

(** [math.isfinite]. *)
Definition math_isfinite (x : pyobj) : result bool :=
  match x with
  | PyFloat f => Ok (F64.is_finite f)
  | PyComplex => Raise (TypeError "must be real number, not complex")
  end.

(** ** Python strings *)

Local Open Scope N_scope.

Definition bytes_of (s : string) : list N :=
  map N_of_ascii (list_ascii_of_string s).

Definition string_of_bytes (l : list N) : string :=
  string_of_list_ascii (map ascii_of_N l).

(** The white space of [str.strip()] below U+0080: U+0009 to U+000D,
    U+001C to U+001F and U+0020. *)
Definition ascii_space (c : N) : bool :=
  ((9 <=? c) && (c <=? 13)) || ((28 <=? c) && (c <=? 32)).

(** [str.lstrip()].  The white space above U+007F is U+0085, U+00A0,
    U+1680, U+2000 to U+200A, U+2028, U+2029, U+202F, U+205F and U+3000,
    here in UTF-8. *)
Fixpoint lstrip_bytes (l : list N) : list N :=
  match l with
  | [] => []
  | c :: r1 =>
    if ascii_space c then lstrip_bytes r1
    else
      match c, r1 with
      | 194, d :: r2 =>
        if (d =? 133) || (d =? 160) then lstrip_bytes r2 else l
      | 225, 154 :: 128 :: r3 => lstrip_bytes r3
      | 226, 128 :: d :: r3 =>
        if ((128 <=? d) && (d <=? 138)) || (d =? 168) || (d =? 169)
           || (d =? 175)
        then lstrip_bytes r3 else l
      | 226, 129 :: 159 :: r3 => lstrip_bytes r3
      | 227, 128 :: 128 :: r3 => lstrip_bytes r3
      | _, _ => l
      end
  end.

(** [str.rstrip()] on the reversed bytes. *)
Fixpoint rstrip_rev (l : list N) : list N :=
  match l with
  | [] => []
  | c :: r1 =>
    if ascii_space c then rstrip_rev r1
    else
      match r1 with
      | 194 :: r2 =>
        if (c =? 133) || (c =? 160) then rstrip_rev r2 else l
      | 154 :: 225 :: r3 => if c =? 128 then rstrip_rev r3 else l
      | 128 :: 226 :: r3 =>
        if ((128 <=? c) && (c <=? 138)) || (c =? 168) || (c =? 169)
           || (c =? 175)
        then rstrip_rev r3 else l
      | 129 :: 226 :: r3 => if c =? 159 then rstrip_rev r3 else l
      | 128 :: 227 :: r3 => if c =? 128 then rstrip_rev r3 else l
      | _ => l
      end
  end.

Definition strip_bytes (l : list N) : list N :=
  rev (rstrip_rev (rev (lstrip_bytes l))).

(** [str.strip()]. *)
Definition strip (s : string) : string :=
  string_of_bytes (strip_bytes (bytes_of s)).

(** [str(n)] for an [int]. *)
Definition str_of_int (z : Z) : string :=
  DecimalString.NilZero.string_of_int (Z.to_int z).

(** *** Decimal literals *)

Definition is_digit (c : N) : bool := (48 <=? c) && (c <=? 57).

Definition is_ident_char (c : N) : bool :=
  is_digit c || ((65 <=? c) && (c <=? 90)) || ((97 <=? c) && (c <=? 122))
  || (c =? 95).

Fixpoint span_digits (l : list N) : list N * list N :=
  match l with
  | c :: r =>
    if is_digit c then let '(ds, r') := span_digits r in (c :: ds, r')
    else ([], l)
  | [] => ([], [])
  end.

Definition digits_value (ds : list N) : Z :=
  fold_left (fun acc d => (10 * acc + (Z.of_N d - 48))%Z) ds 0%Z.

(** A scanned literal: the digits before and after the point, whether
    there is a point, and the exponent when there is one. *)
Record decimal_lit : Type := {
  int_digits : list N;
  frac_digits : list N;
  has_point : bool;
  exponent : option Z
}.

(** The exponent part [e[+-]digits]; without a digit nothing is
    consumed. *)
Definition scan_exponent (l : list N) : option Z * list N :=
  match l with
  | c :: r =>
    if (c =? 101) || (c =? 69) then
      let '(neg, r1) :=
        match r with
        | 43 :: r1 => (false, r1)
        | 45 :: r1 => (true, r1)
        | _ => (false, r)
        end in
      match span_digits r1 with
      | ([], _) => (None, l)
      | (ds, r2) =>
        (Some (if neg then (- digits_value ds)%Z else digits_value ds), r2)
      end
    else (None, l)
  | [] => (None, l)
  end.

(** The longest prefix [digits [. digits] [exponent]] or
    [. digits [exponent]]. *)
Definition scan_decimal (l : list N) : option (decimal_lit * list N) :=
  let '(ds, r) := span_digits l in
  match r with
  | 46 :: r1 =>
    let '(fs, r2) := span_digits r1 in
    match ds, fs with
    | [], [] => None
    | _, _ =>
      let '(ex, r3) := scan_exponent r2 in
      Some ({| int_digits := ds; frac_digits := fs; has_point := true;
               exponent := ex |}, r3)
    end
  | _ =>
    match ds with
    | [] => None
    | _ =>
      let '(ex, r3) := scan_exponent r in
      Some ({| int_digits := ds; frac_digits := []; has_point := false;
               exponent := ex |}, r3)
    end
  end.

(** The float nearest to [m * 10^e], [m >= 0]: correctly rounded, as
    [strtod] of [dtoa.c] is.  With [2^l <= m < 2^(l+1)] and
    [2^3 < 10 < 2^4], a value of at least [2^1100] is beyond the largest
    float and gives infinity, and one below [2^-1100] is under half the
    least positive float and gives zero; the power of ten is computed
    only between the two. *)
Definition float_of_decimal (m e : Z) : float :=
  let l := Z.log2 m in
  if (m =? 0)%Z then F64.pos_zero
  else if (0 <=? e)%Z then
    if (1100 <=? l + 3 * e)%Z then F64.pos_inf
    else F64.of_Z (m * 10 ^ e)
  else if (l + 1 + 3 * e <=? - 1100)%Z then F64.pos_zero
  else if (1100 <=? l + 4 * e)%Z then F64.pos_inf
  else F64.of_ratio m (Z.to_pos (10 ^ (- e))).

Definition lit_is_float (d : decimal_lit) : bool :=
  has_point d || match exponent d with Some _ => true | None => false end.

Definition lit_float (d : decimal_lit) : float :=
  float_of_decimal
    (digits_value (int_digits d ++ frac_digits d)%list)
    (match exponent d with Some e => e | None => 0%Z end
     - Z.of_nat (List.length (frac_digits d))).

Local Close Scope N_scope.

(** ** The arithmetic fragment of [ast.parse]

    [arith_parse] is [ast.parse(_, mode="eval")] on the strings of at
    most 255 bytes made of decimal literals, [True], [False], [None],
    the operators [+ - ~ * / // % **], parentheses, and blanks that do
    not lead the line.  It gives the body of the [Expression], and
    [None] on every other string, which is left to the [host]. *)

Inductive token : Type :=
| TConst (c : constant)
| TPlus | TMinus | TTilde
| TStar | TSlash | TDoubleSlash | TPercent | TDoubleStar
| TLParen | TRParen.

(** The constant of a literal.  An integer literal with a leading zero
    is valid only when all its digits are zero. *)
Definition lit_constant (d : decimal_lit) : option constant :=
  if lit_is_float d then Some (CFloat (lit_float d))
  else
    match int_digits d with
    | 48%N :: _ :: _ =>
      if (digits_value (int_digits d) =? 0)%Z then Some (CInt 0) else None
    | ds => Some (CInt (digits_value ds))
    end.

Fixpoint span_ident (l : list N) : list N * list N :=
  match l with
  | c :: r =>
    if is_ident_char c then let '(cs, r') := span_ident r in (c :: cs, r')
    else ([], l)
  | [] => ([], [])
  end.

Definition keyword_constant (name : string) : option constant :=
  if String.eqb name "True" then Some (CBool true)
  else if String.eqb name "False" then Some (CBool false)
  else if String.eqb name "None" then Some CNone
  else None.

Definition cons_token (t : token) (r : option (list token))
  : option (list token) :=
  option_map (cons t) r.

Fixpoint tokenize (fuel : nat) (l : list N) : option (list token) :=
  match fuel with
  | O => None
  | S fuel =>
    match l with
    | [] => Some []
    | c :: r =>
      if ((c =? 32) || (c =? 9) || (c =? 12))%N then tokenize fuel r
      else if (c =? 40)%N then cons_token TLParen (tokenize fuel r)
      else if (c =? 41)%N then cons_token TRParen (tokenize fuel r)
      else if (c =? 43)%N then cons_token TPlus (tokenize fuel r)
      else if (c =? 45)%N then cons_token TMinus (tokenize fuel r)
      else if (c =? 126)%N then cons_token TTilde (tokenize fuel r)
      else if (c =? 37)%N then cons_token TPercent (tokenize fuel r)
      else if (c =? 42)%N then
        match r with
        | 42%N :: r' => cons_token TDoubleStar (tokenize fuel r')
        | _ => cons_token TStar (tokenize fuel r)
        end
      else if (c =? 47)%N then
        match r with
        | 47%N :: r' => cons_token TDoubleSlash (tokenize fuel r')
        | _ => cons_token TSlash (tokenize fuel r)
        end
      else if is_digit c || (c =? 46)%N then
        match scan_decimal l with
        | Some (d, r') =>
          match r' with
          | c' :: _ =>
            if is_ident_char c' || (c' =? 46)%N || (128 <=? c')%N then None
            else
              match lit_constant d with
              | Some k => cons_token (TConst k) (tokenize fuel r')
              | None => None
              end
          | [] =>
            match lit_constant d with
            | Some k => Some [TConst k]
            | None => None
            end
          end
        | None => None
        end
      else if is_ident_char c then
        let '(name, r') := span_ident l in
        match r' with
        | c' :: _ => if (128 <=? c')%N then None else
          match keyword_constant (string_of_bytes name) with
          | Some k => cons_token (TConst k) (tokenize fuel r')
          | None => None
          end
        | [] =>
          match keyword_constant (string_of_bytes name) with
          | Some k => Some [TConst k]
          | None => None
          end
        end
      else None
    end
  end.

(** Python's grammar on these tokens:
    [sum: sum ('+'|'-') term | term],
    [term: term ('*'|'/'|'//'|'%') factor | factor],
    [factor: ('+'|'-'|'~') factor | power],
    [power: atom '**' factor | atom],
    [atom: NUMBER | 'True' | 'False' | 'None' | '(' sum ')']. *)
Fixpoint parse_sum (fuel : nat) (ts : list token)
  : option (node * list token) :=
  match fuel with
  | O => None
  | S fuel =>
    match parse_term fuel ts with
    | Some (l, r) => parse_sum_rest fuel l r
    | None => None
    end
  end
with parse_sum_rest (fuel : nat) (l : node) (ts : list token)
  : option (node * list token) :=
  match fuel with
  | O => None
  | S fuel =>
    match ts with
    | TPlus :: r =>
      match parse_term fuel r with
      | Some (t, r') => parse_sum_rest fuel (BinOp l Add t) r'
      | None => None
      end
    | TMinus :: r =>
      match parse_term fuel r with
      | Some (t, r') => parse_sum_rest fuel (BinOp l Sub t) r'
      | None => None
      end
    | _ => Some (l, ts)
    end
  end
with parse_term (fuel : nat) (ts : list token)
  : option (node * list token) :=
  match fuel with
  | O => None
  | S fuel =>
    match parse_factor fuel ts with
    | Some (l, r) => parse_term_rest fuel l r
    | None => None
    end
  end
with parse_term_rest (fuel : nat) (l : node) (ts : list token)
  : option (node * list token) :=
  match fuel with
  | O => None
  | S fuel =>
    let continue (o : operator) (r : list token) :=
      match parse_factor fuel r with
      | Some (f, r') => parse_term_rest fuel (BinOp l o f) r'
      | None => None
      end in
    match ts with
    | TStar :: r => continue Mult r
    | TSlash :: r => continue Div r
    | TDoubleSlash :: r => continue FloorDiv r
    | TPercent :: r => continue Mod r
    | _ => Some (l, ts)
    end
  end
with parse_factor (fuel : nat) (ts : list token)
  : option (node * list token) :=
  match fuel with
  | O => None
  | S fuel =>
    let unary (o : unaryop) (r : list token) :=
      match parse_factor fuel r with
      | Some (f, r') => Some (UnaryOp o f, r')
      | None => None
      end in
    match ts with
    | TPlus :: r => unary UAdd r
    | TMinus :: r => unary USub r
    | TTilde :: r => unary Invert r
    | _ => parse_power fuel ts
    end
  end
with parse_power (fuel : nat) (ts : list token)
  : option (node * list token) :=
  match fuel with
  | O => None
  | S fuel =>
    match parse_atom fuel ts with
    | Some (a, TDoubleStar :: r) =>
      match parse_factor fuel r with
      | Some (f, r') => Some (BinOp a Pow f, r')
      | None => None
      end
    | other => other
    end
  end
with parse_atom (fuel : nat) (ts : list token)
  : option (node * list token) :=
  match fuel with
  | O => None
  | S fuel =>
    match ts with
    | TConst c :: r => Some (Constant c, r)
    | TLParen :: r =>
      match parse_sum fuel r with
      | Some (e, TRParen :: r') => Some (e, r')
      | _ => None
      end
    | _ => None
    end
  end.

Definition arith_parse (s : string) : option node :=
  let l := bytes_of s in
  if (255 <? List.length l)%nat then None
  else
    match l with
    | [] => None
    | c :: _ =>
      if ((c =? 32) || (c =? 9) || (c =? 12))%N then None
      else
        match tokenize (S (List.length l)) l with
        | Some ts =>
          match parse_sum (8 * List.length ts + 8) ts with
          | Some (e, []) => Some e
          | _ => None
          end
        | None => None
        end
    end.

(** [ast.parse(expr, mode="eval")]. *)
Definition ast_parse (H : host) (expr : string) : parse_result :=
  match arith_parse expr with
  | Some e => ParseOk (Expression e)
  | None => host_parse H expr
  end.

(** ** The safe evaluator *)

Definition _MAX_ABS_RESULT : float := float_of_decimal 1 12.
Definition _MAX_ABS_BASE_FOR_POW : float := float_of_decimal 1 6.
Definition _MAX_ABS_EXPONENT : Z := 10.

Definition lift (f : float -> float -> float) (a b : float) : result pyobj :=
  Ok (PyFloat (f a b)).

(** [_ALLOWED_BINOPS] on two floats; [None] when [op_type] is not a
    key. *)
Definition _ALLOWED_BINOPS (H : host) (op_type : operator)
  : option (float -> float -> result pyobj) :=
  match op_type with
  | Add => Some (lift F64.add)
  | Sub => Some (lift F64.sub)
  | Mult => Some (lift F64.mul)
  | Div => Some float_div
  | Mod => Some float_rem
  | FloorDiv => Some float_floor_div
  | Pow => Some (float_pow H)
  | MatMult | LShift | RShift | BitOr | BitXor | BitAnd => None
  end.

Definition _ALLOWED_UNARYOPS (op_type : unaryop) : option (float -> float) :=
  match op_type with
  | UAdd => Some (fun x => x)
  | USub => Some (fun x => F64.opp x)
  | Not | Invert => None
  end.

Definition is_Pow (o : operator) : bool :=
  match o with Pow => true | _ => false end.

(** [x > n] for a float [x] and the int [n]. *)
Definition float_gt_int (x : float) (n : Z) : bool := F64.ltb (F64.of_Z n) x.

(** The end of the [ast.BinOp] branch of [_eval], on what the call
    [_ALLOWED_BINOPS[op_type](left, right)] gave: the handler of
    [ZeroDivisionError], then the range check.  [math.isfinite] raises
    on a complex number, so the last branch is never reached. *)
Definition finish_binop (applied : result pyobj) : result float :=
  match applied with
  | Raise (ZeroDivisionError _) => Raise (ValueError "Division by zero.")
  | Raise e => Raise e
  | Ok res =>
    fin <- math_isfinite res ;;
    match res with
    | PyFloat r =>
      if fin && F64.leb (F64.abs r) _MAX_ABS_RESULT then Ok r
      else Raise (ValueError "Result out of allowed range or not finite.")
    | PyComplex =>
      Raise (ValueError "Result out of allowed range or not finite.")
    end
  end.

(** The part of the [ast.BinOp] branch of [_eval] that follows the
    evaluation of the operands. *)
Definition eval_binop (H : host) (op_type : operator) (left right : float)
  : result float :=
  match _ALLOWED_BINOPS H op_type with
  | None => Raise (ValueError "Unsupported binary operator.")
  | Some f =>
    if is_Pow op_type && float_gt_int (F64.abs right) _MAX_ABS_EXPONENT
    then Raise (ValueError "Exponent too large (abs > 10).")
    else if is_Pow op_type
            && F64.ltb _MAX_ABS_BASE_FOR_POW (F64.abs left)
    then Raise (ValueError "Base too large for exponentiation.")
    else finish_binop (f left right)
  end.

(** [_eval] of [safe_eval].  The test for [ast.Num] comes after the one
    for [ast.Constant], which every instance of [ast.Num] passes, so no
    node reaches it. *)
Fixpoint _eval (H : host) (n : node) : result float :=
  match n with
  | Expression body => _eval H body
  | Constant value =>
    match value with
    | CInt z => float_of_int z
    | CBool b => Ok (F64.of_Z (if b then 1 else 0))
    | CFloat f => Ok f
    | _ => Raise (ValueError "Only numeric constants allowed.")
    end
  | UnaryOp op operand =>
    match _ALLOWED_UNARYOPS op with
    | Some f => x <- _eval H operand ;; Ok (f x)
    | None => Raise (ValueError "Unsupported unary operator.")
    end
  | BinOp l op r =>
    left <- _eval H l ;;
    right <- _eval H r ;;
    eval_binop H op left right
  | Other kind => Raise (ValueError ("Unsupported element: " ++ kind))
  end.

Definition safe_eval (H : host) (expr : string) : result float :=
  if String.eqb expr EmptyString || String.eqb (strip expr) EmptyString
  then Raise (ValueError "Empty expression.")
  else
    match ast_parse H expr with
    | ParseSyntaxError e => Raise (ValueError ("Syntax error: " ++ e))
    | ParseOk parsed => _eval H parsed
    end.

(** ** A reference platform

    A [host] to run the model on: its [pow] is correctly rounded on
    integral exponents up to a thousand in magnitude, sets [ERANGE] on
    overflow and on underflow to zero, and reports [EDOM] on the
    exponents it does not cover; its parser and its [float()] reject
    what the fragments leave to them. *)

Definition pow_integral (x y : float) : float * errno :=
  match x, F64.to_scaled y with
  | S754_finite false m e, Some (ym, ye) =>
    if F64.is_integer y && F64.leb (F64.abs y) (F64.of_Z 1000) then
      let n := Z.shiftl ym ye in
      let r :=
        if (0 <=? n)%Z then F64.of_scaled (Zpos m ^ n) (e * n)
        else if (e <=? 0)%Z
        then F64.of_ratio (2 ^ (e * n)) (m ^ Z.to_pos (- n))
        else F64.of_ratio 1 (m ^ Z.to_pos (- n) * 2 ^ Z.to_pos (e * - n)) in
      (r, if F64.is_inf r || F64.is_zero r then ERANGE else ENONE)
    else (F64.nan, EDOM)
  | _, _ => (F64.nan, EDOM)
  end.

Definition ref_host : host := {|
  host_parse := fun _ => ParseSyntaxError "invalid syntax";
  libm_pow := pow_integral;
  complex_pow_overflows := fun _ _ => false;
  host_float := fun _ => None
|}.

(** ** More built-ins: [round], [math.isclose], [repr], [float(str)] *)

(** [round(x)] with one argument: the nearest integer, ties to even. *)
Definition py_round (x : float) : result Z :=
  match x with
  | S754_nan => Raise (ValueError "cannot convert float NaN to integer")
  | S754_infinity _ =>
    Raise (OverflowError "cannot convert float infinity to integer")
  | S754_zero _ => Ok 0
  | S754_finite s m e =>
    if 0 <=? e then Ok (cond_Zopp s (Z.shiftl (Zpos m) e))
    else
      let q := Z.shiftr (Zpos m) (- e) in
      let r := Zpos m - Z.shiftl q (- e) in
      let half := Z.shiftl 1 (- e - 1) in
      let q' :=
        if r <? half then q
        else if half <? r then q + 1
        else if Z.even q then q else q + 1 in
      Ok (cond_Zopp s q')
  end.

(** [math.isclose(a, b, rel_tol=_, abs_tol=_)] on floats:
    [math_isclose_impl] of [mathmodule.c]. *)
Definition math_isclose (a b rel_tol abs_tol : float) : result bool :=
  if F64.ltb rel_tol F64.pos_zero || F64.ltb abs_tol F64.pos_zero
  then Raise (ValueError "tolerances must be non-negative")
  else if F64.eqb a b then Ok true
  else if F64.is_inf a || F64.is_inf b then Ok false
  else
    let diff := F64.abs (F64.sub b a) in
    Ok (F64.leb diff (F64.abs (F64.mul rel_tol b))
        || F64.leb diff (F64.abs (F64.mul rel_tol a))
        || F64.leb diff abs_tol).

(** *** [repr] of a float

    The shortest decimal that reads back as the float, the nearest one
    when several of that length do ([_Py_dg_dtoa] in mode 0), laid out
    as [float_repr] of [floatobject.c] does. *)

(** [num / den < 10^k]. *)
Definition lt_pow10 (num den k : Z) : bool :=
  if 0 <=? k then num <? den * 10 ^ k else num * 10 ^ (- k) <? den.

Fixpoint find_decpt (fuel : nat) (num den k : Z) : Z :=
  match fuel with
  | O => k
  | S fuel =>
    if lt_pow10 num den k then k else find_decpt fuel num den (k + 1)
  end.

(** The least [k] with [num / den < 10^k]; the estimate from the binary
    logarithms is at most one off, and the search starts two below. *)
Definition decpt_of (num den : Z) : Z :=
  find_decpt 8 num den ((Z.log2 num - Z.log2 den) * 1233 / 4096 - 1).

(** The [n]-digit decimals just below and above [num / den], when one
    of them reads back as [x]. *)
Definition digits_at (x : float) (num den k n : Z) : option Z :=
  let s := n - k in
  let '(num', den') :=
    if 0 <=? s then (num * 10 ^ s, den) else (num, den * 10 ^ (- s)) in
  let lo := num' / den' in
  let r := num' mod den' in
  let reads_back (d : Z) := F64.eqb (float_of_decimal d (k - n)) x in
  if r =? 0 then Some lo
  else
    match reads_back lo, reads_back (lo + 1) with
    | true, true => Some (if 2 * r <? den' then lo else lo + 1)
    | true, false => Some lo
    | false, true => Some (lo + 1)
    | false, false =>
      if 17 <=? n then Some (if 2 * r <? den' then lo else lo + 1) else None
    end.

(** The digits of the shortest such decimal, and their number. *)
Fixpoint shortest_digits (fuel : nat) (x : float) (num den k n : Z)
  : Z * Z :=
  match fuel with
  | O => (0, n)
  | S fuel =>
    match digits_at x num den k n with
    | Some d => (d, n)
    | None => shortest_digits fuel x num den k (n + 1)
    end
  end.

Fixpoint strip_zeros (fuel : nat) (d : Z) : Z :=
  match fuel with
  | O => d
  | S fuel =>
    if (d mod 10 =? 0) && (0 <? d) then strip_zeros fuel (d / 10) else d
  end.

Fixpoint zeros (n : nat) : string :=
  match n with
  | O => EmptyString
  | S n => String "0" (zeros n)
  end.

(** The digit string and the position of the decimal point of a
    positive finite float [m * 2^e]: its value is [0.digits * 10^decpt].
    When the decimal above has carried into [10^n], the point moves
    by one. *)
Definition dtoa (m : positive) (e : Z) : string * Z :=
  let num := if 0 <=? e then Zpos m * 2 ^ e else Zpos m in
  let den := if 0 <=? e then 1 else 2 ^ (- e) in
  let k := decpt_of num den in
  let '(d, n) := shortest_digits 17 (S754_finite false m e) num den k 1 in
  (str_of_int (strip_zeros 17 d), if d =? 10 ^ n then k + 1 else k).

Definition float_repr (x : float) : string :=
  match x with
  | S754_nan => "nan"
  | S754_infinity s => if s then "-inf" else "inf"
  | S754_zero s => if s then "-0.0" else "0.0"
  | S754_finite s m e =>
    let '(digits, decpt) := dtoa m e in
    let n := Z.of_nat (String.length digits) in
    let body :=
      if (decpt <=? -4) || (16 <? decpt) then
        let ex := decpt - 1 in
        let es := str_of_int (Z.abs ex) in
        String.substring 0 1 digits
        ++ (if 1 <? n
            then "." ++ String.substring 1 (String.length digits - 1) digits
            else EmptyString)
        ++ "e" ++ (if ex <? 0 then "-" else "+")
        ++ (if Z.abs ex <? 10 then "0" else EmptyString) ++ es
      else if decpt <=? 0 then "0." ++ zeros (Z.to_nat (- decpt)) ++ digits
      else if n <=? decpt
      then digits ++ zeros (Z.to_nat (decpt - n)) ++ ".0"
      else String.substring 0 (Z.to_nat decpt) digits ++ "."
           ++ String.substring (Z.to_nat decpt)
                (String.length digits - Z.to_nat decpt) digits
    in if s then "-" ++ body else body
  end.

(** *** [float(s)] for a [str]: [PyFloat_FromString] *)

Definition c_isspace (c : N) : bool :=
  ((9 <=? c) && (c <=? 13) || (c =? 32))%N.

Fixpoint drop_c_space (l : list N) : list N :=
  match l with
  | c :: r => if c_isspace c then drop_c_space r else l
  | [] => []
  end.

(** [_Py_string_to_number_with_underscores]: an underscore is accepted
    only between two digits, and removed. *)
Fixpoint remove_underscores (prev : N) (l : list N) : option (list N) :=
  match l with
  | [] => if (prev =? 95)%N then None else Some []
  | c :: r =>
    if (c =? 95)%N then
      if is_digit prev then remove_underscores c r else None
    else if (prev =? 95)%N && negb (is_digit c) then None
    else option_map (cons c) (remove_underscores c r)
  end.

Definition to_lower (c : N) : N :=
  if ((65 <=? c) && (c <=? 90))%N then (c + 32)%N else c.

(** [_PyOS_ascii_strtod] on a whole string: a sign, then [inf],
    [infinity] or [nan] in any case, or a decimal literal. *)
Definition strtod_whole (l : list N) : option float :=
  let '(neg, r) :=
    match l with
    | 45%N :: r => (true, r)
    | 43%N :: r => (false, r)
    | _ => (false, l)
    end in
  let signed (x : float) := if neg then F64.opp x else x in
  let word := string_of_bytes (map to_lower r) in
  if String.eqb word "inf" || String.eqb word "infinity"
  then Some (signed F64.pos_inf)
  else if String.eqb word "nan" then Some F64.nan
  else
    match scan_decimal r with
    | Some (d, []) => Some (signed (lit_float d))
    | _ => None
    end.

(** [float(s)]: [None] stands for the [ValueError]. *)
Definition float_of_str (H : host) (s : string) : option float :=
  let l := bytes_of s in
  if existsb (fun c => (128 <=? c)%N) l then host_float H s
  else
    let body := rev (drop_c_space (rev (drop_c_space l))) in
    match body with
    | [] => None
    | _ =>
      if existsb (fun c => (c =? 95)%N) body then
        match remove_underscores 0%N body with
        | Some body' => strtod_whole body'
        | None => None
        end
      else strtod_whole body
    end.

(** ** Session state and callbacks *)

Record session_state : Type := {
  correct_answer : option float;
  eq_text : string;
  feedback : string;
  eq_input : string;
  user_answer_input : string
}.

Definition defaults : session_state := {|
  correct_answer := None;
  eq_text := EmptyString;
  feedback := EmptyString;
  eq_input := EmptyString;
  user_answer_input := EmptyString
|}.

Definition set_feedback (st : session_state) (fb : string) : session_state :=
  {| correct_answer := correct_answer st; eq_text := eq_text st;
     feedback := fb; eq_input := eq_input st;
     user_answer_input := user_answer_input st |}.

Definition set_eq_input (st : session_state) (e : string) : session_state :=
  {| correct_answer := correct_answer st; eq_text := eq_text st;
     feedback := feedback st; eq_input := e;
     user_answer_input := user_answer_input st |}.

(** How a callback ends: it returns, or an exception leaves it. *)
Inductive completion : Type :=
| Returned
| Escaped (e : exn).

Definition str_of_exn (e : exn) : string :=
  match e with
  | ValueError m | ZeroDivisionError m | OverflowError m | TypeError m => m
  end.

Definition on_set_equation (H : host) (st : session_state)
  : session_state * completion :=
  let expr := strip (eq_input st) in
  let st := set_feedback st EmptyString in
  if String.eqb expr EmptyString
  then (set_feedback st "Please enter an equation first.", Returned)
  else
    match safe_eval H expr with
    | Raise (ValueError e) =>
      ({| correct_answer := None; eq_text := EmptyString;
          feedback := "Invalid equation: " ++ e;
          eq_input := eq_input st;
          user_answer_input := user_answer_input st |}, Returned)
    | Raise e => (st, Escaped e)
    | Ok result =>
      ({| correct_answer := Some result; eq_text := expr;
          feedback := "Equation accepted — now enter your answer.";
          eq_input := eq_input st;
          user_answer_input := EmptyString |}, Returned)
    end.

Definition rel_abs_tol_int : float := float_of_decimal 1 (-12).
Definition rel_abs_tol : float := float_of_decimal 1 (-9).

(** The integer-friendly comparison that ends [on_check_answer]: the
    feedback for the locked value [correct] and the answer
    [user_val]. *)
Definition compare_feedback (correct user_val : float) : result string :=
  n <- py_round correct ;;
  fn <- float_of_int n ;;
  like_int <- math_isclose correct fn rel_abs_tol_int rel_abs_tol_int ;;
  if like_int then
    n <- py_round correct ;;
    fn <- float_of_int n ;;
    close <- math_isclose user_val fn rel_abs_tol rel_abs_tol ;;
    if close then Ok "✅ Correct!"
    else
      n <- py_round correct ;;
      Ok ("❌ Incorrect. The correct answer is " ++ str_of_int n ++ ".")
  else
    close <- math_isclose user_val correct rel_abs_tol rel_abs_tol ;;
    if close then Ok "✅ Correct (within tolerance)!"
    else Ok ("❌ Incorrect. The correct answer is " ++ float_repr correct
             ++ ".").

(** The feedback of [on_check_answer] when neither [safe_eval] nor
    [float] reads the answer. *)
Definition could_not_parse : string :=
  "Could not parse your answer as a number. Try `1.5` or `3/4`.".

(** The end of [on_check_answer], once the answer has the value
    [user_val]. *)
Definition check_value (st : session_state) (user_val : float)
  : session_state * completion :=
  match correct_answer st with
  | None => (set_feedback st "No valid equation is set.", Returned)
  | Some correct =>
    match compare_feedback correct user_val with
    | Ok fb => (set_feedback st fb, Returned)
    | Raise e => (st, Escaped e)
    end
  end.

Definition on_check_answer (H : host) (st : session_state)
  : session_state * completion :=
  let user_ans := user_answer_input st in
  if String.eqb (strip user_ans) EmptyString
  then (set_feedback st "Please type an answer first.", Returned)
  else
    match safe_eval H user_ans with
    | Ok user_val => check_value st user_val
    | Raise (ValueError _) =>
      match float_of_str H user_ans with
      | Some user_val => check_value st user_val
      | None => (set_feedback st could_not_parse, Returned)
      end
    | Raise e => (st, Escaped e)
    end.

(** The values of [random.randint(1, 12)]. *)
Definition randint_1_12 : list Z := [1; 2; 3; 4; 5; 6; 7; 8; 9; 10; 11; 12].

(** [generate_easy_problem], on what [random.choice] and the two calls
    of [random.randint(1, 12)] return, in the order of the calls. *)
Definition generate_easy_problem (op : string) (r1 r2 : Z) : string :=
  if String.eqb op "/" then
    let divisor := r1 in
    let quotient := r2 in
    let dividend := divisor * quotient in
    str_of_int dividend ++ "/" ++ str_of_int divisor
  else
    let a := r1 in
    let b := r2 in
    str_of_int a ++ op ++ str_of_int b.

Definition on_random_problem (H : host) (op : string) (r1 r2 : Z)
  (st : session_state) : session_state * completion :=
  let expr := generate_easy_problem op r1 r2 in
  let st := set_eq_input st expr in
  match safe_eval H expr with
  | Raise (ValueError e) =>
    ({| correct_answer := None; eq_text := EmptyString;
        feedback := "Generated invalid equation (unexpected): " ++ e;
        eq_input := eq_input st;
        user_answer_input := user_answer_input st |}, Returned)
  | Raise e => (st, Escaped e)
  | Ok result =>
    ({| correct_answer := Some result; eq_text := expr;
        feedback := "Random problem set: `" ++ expr
                    ++ "` — enter your answer.";
        eq_input := eq_input st;
        user_answer_input := EmptyString |}, Returned)
  end.

(** The float a decimal literal denotes, for statements. *)
Definition lit (s : string) : float :=
  match strtod_whole (bytes_of s) with
  | Some x => x
  | None => F64.nan
  end.

(** A locked equation, for statements. *)
Definition locked (text : string) (value : float) (input answer : string)
  : session_state :=
  {| correct_answer := Some value; eq_text := text; feedback := EmptyString;
     eq_input := input; user_answer_input := answer |}.

(** An error of the taxonomy: a [ValueError]. *)
Definition classified (e : exn) : bool :=
  match e with
  | ValueError _ => true
  | _ => false
  end.

(** *** The rest of the page *)

(** The text of the "Show Correct Answer" button for a locked value:
    the integer when the value is integer-like, the float otherwise. *)
Definition correct_answer_text (correct : float) : result string :=
  n <- py_round correct ;;
  fn <- float_of_int n ;;
  like_int <- math_isclose correct fn rel_abs_tol_int rel_abs_tol_int ;;
  if like_int then
    n <- py_round correct ;;
    Ok ("The correct answer is " ++ str_of_int n ++ ".")
  else Ok ("The correct answer is " ++ float_repr correct ++ ".").

(** The body of [if st.button("Show Correct Answer")]. *)
Definition show_correct_answer (st : session_state)
  : session_state * completion :=
  match correct_answer st with
  | None => (set_feedback st "No correct answer to show.", Returned)
  | Some correct =>
    match correct_answer_text correct with
    | Ok fb => (set_feedback st fb, Returned)
    | Raise e => (st, Escaped e)
    end
  end.

(** What the user types in the answer box. *)
Definition set_user_answer_input (st : session_state) (a : string)
  : session_state :=
  {| correct_answer := correct_answer st; eq_text := eq_text st;
     feedback := feedback st; eq_input := eq_input st;
     user_answer_input := a |}.

(** The call that displays the feedback at the bottom of the page. *)
Inductive widget : Type :=
| NoWidget
| StSuccess
| StError
| StInfo.

(** [str.startswith] compares code points; on UTF-8 it is the prefix
    test on bytes. *)
Definition display_feedback (fb : string) : widget :=
  if String.eqb fb EmptyString then NoWidget
  else if String.prefix "✅" fb then StSuccess
  else if String.prefix "❌" fb || String.prefix "Invalid" fb
          || String.prefix "Could not" fb
  then StError
  else StInfo.

(** What the user does on the page: typing in one of the two boxes, or
    pressing a button, which runs its callback.  For the random
    problem, what [random] returns comes with the event. *)
Inductive event : Type :=
| TypeEquation (text : string)
| TypeAnswer (text : string)
| PressSetEquation
| PressCheckAnswer
| PressRandomProblem (op : string) (r1 r2 : Z)
| PressShowCorrectAnswer.

(** The session state after an event; what a callback has assigned
    before an exception leaves it stays assigned. *)
Definition handle (H : host) (ev : event) (st : session_state)
  : session_state :=
  match ev with
  | TypeEquation text => set_eq_input st text
  | TypeAnswer text => set_user_answer_input st text
  | PressSetEquation => fst (on_set_equation H st)
  | PressCheckAnswer => fst (on_check_answer H st)
  | PressRandomProblem op r1 r2 => fst (on_random_problem H op r1 r2 st)
  | PressShowCorrectAnswer => fst (show_correct_answer st)
  end.

Fixpoint run (H : host) (evs : list event) (st : session_state)
  : session_state :=
  match evs with
  | [] => st
  | ev :: evs => run H evs (handle H ev st)
  end.

(** *** Notions for the statements *)

(** The nodes and operators that [_eval] accepts. *)
Fixpoint allowed (n : node) : bool :=
  match n with
  | Expression body => allowed body
  | Constant (CInt _ | CBool _ | CFloat _) => true
  | Constant _ => false
  | UnaryOp (UAdd | USub) operand => allowed operand
  | UnaryOp _ _ => false
  | BinOp l (Add | Sub | Mult | Div | Mod | FloorDiv | Pow) r =>
    allowed l && allowed r
  | BinOp _ _ _ => false
  | Other _ => false
  end.



(** The lock is consistent: the stored text evaluates to the stored
    result, and there is no text when there is no result. *)
Definition lock_consistent (H : host) (st : session_state) : Prop :=
  match correct_answer st with
  | Some v => safe_eval H (eq_text st) = Ok v
  | None => eq_text st = EmptyString
  end.

(** The messages of the numeric failures. *)
Definition numeric_messages : list string :=
  [ "Exponent too large (abs > 10).";
    "Base too large for exponentiation.";
    "Division by zero.";
    "Result out of allowed range or not finite.";
    "(33, 'Numerical argument out of domain')" ].

(** The operators [generate_easy_problem] chooses from. *)
Definition easy_operators : list string := ["+"; "-"; "*"; "/"].

(** The integer a generated problem stands for. *)
Definition easy_answer (op : string) (r1 r2 : Z) : Z :=
  if String.eqb op "+" then r1 + r2
  else if String.eqb op "-" then r1 - r2
  else if String.eqb op "*" then r1 * r2
  else r2.

(** * Properties *)

Ltac break_if :=
  match goal with
  | |- context [if ?c then _ else _] => destruct c eqn:?
  | H : context [if ?c then _ else _] |- _ => destruct c eqn:?
  end.

(** ** Sanity checks of the embedding *)

Example binary64_constants :
  lit "4.5" = S754_finite false 5066549580791808 (-50)
  /\ lit "1e999" = F64.pos_inf
  /\ lit "0.1" = S754_finite false 7205759403792794 (-56)
  /\ _MAX_ABS_RESULT = F64.of_Z 1000000000000
  /\ _MAX_ABS_BASE_FOR_POW = F64.of_Z 1000000.
Proof. repeat split; vm_compute; reflexivity. Qed.

Example arith_parse_precedence :
  arith_parse "-2**-3**2"
  = Some (UnaryOp USub
            (BinOp (Constant (CInt 2)) Pow
               (UnaryOp USub
                  (BinOp (Constant (CInt 3)) Pow (Constant (CInt 2))))))
  /\ arith_parse "1 - 2 - 3"
     = Some (BinOp (BinOp (Constant (CInt 1)) Sub (Constant (CInt 2))) Sub
               (Constant (CInt 3)))
  /\ arith_parse " 1" = None
  /\ arith_parse "2+" = None
  /\ arith_parse "f(1)" = None.
Proof. repeat split; vm_compute; reflexivity. Qed.

Example float_operators :
  float_rem (lit "-7") (lit "3") = Ok (PyFloat (lit "2"))
  /\ float_rem (lit "7") (lit "-3") = Ok (PyFloat (lit "-2"))
  /\ float_floor_div (lit "-7") (lit "2") = Ok (PyFloat (lit "-4"))
  /\ float_floor_div (lit "7.5") (lit "2") = Ok (PyFloat (lit "3"))
  /\ py_round (lit "2.5") = Ok 2
  /\ py_round (lit "3.5") = Ok 4
  /\ py_round (lit "-0.5") = Ok 0
  /\ float_repr (lit "4.5") = "4.5"
  /\ float_repr (lit "1e16") = "1e+16"
  /\ float_repr (F64.add (lit "0.1") (lit "0.2")) = "0.30000000000000004"
  /\ strip "  3/4 " = "3/4".
Proof. repeat split; vm_compute; reflexivity. Qed.

Example guard_samples :
  float_gt_int (F64.abs (lit "10.5")) _MAX_ABS_EXPONENT = true
  /\ float_gt_int (F64.abs (lit "-11")) _MAX_ABS_EXPONENT = true
  /\ float_gt_int (F64.abs (lit "9.99")) _MAX_ABS_EXPONENT = false
  /\ F64.ltb _MAX_ABS_BASE_FOR_POW (F64.abs (lit "-1000000.5")) = true
  /\ F64.ltb _MAX_ABS_BASE_FOR_POW (F64.abs (lit "999999.9")) = false.
Proof. repeat split; vm_compute; reflexivity. Qed.

(** ** What the evaluator guarantees at a binary node *)

Section Evaluator.

Variable H : host.

Lemma float_pow_ValueError (a b : float) (m : string) :
  float_pow H a b = Raise (ValueError m) ->
  m = "(33, 'Numerical argument out of domain')".
Proof.
  unfold float_pow. intros E.
  repeat break_if; try discriminate.
  all: destruct (libm_pow H (F64.abs a) b) as [ix e];
    destruct (adjust_erange1 ix e); inversion E; reflexivity.
Qed.

Lemma allowed_binop_ValueError (op : operator) f (a b : float) (m : string) :
  _ALLOWED_BINOPS H op = Some f ->
  f a b = Raise (ValueError m) ->
  m = "(33, 'Numerical argument out of domain')".
Proof.
  destruct op; cbn [_ALLOWED_BINOPS]; intros E; inversion E; subst f;
    unfold lift, float_div, float_rem, float_floor_div; intros R;
    try (repeat break_if; discriminate).
  eapply float_pow_ValueError; eassumption.
Qed.

Lemma finish_binop_in_range (applied : result pyobj) (v : float) :
  finish_binop applied = Ok v ->
  F64.is_finite v = true /\ F64.leb (F64.abs v) _MAX_ABS_RESULT = true.
Proof.
  unfold finish_binop.
  destruct applied as [[r|]|[]]; cbn [math_isfinite bind]; try discriminate.
  destruct (F64.is_finite r) eqn:Fin; cbn [andb]; [|discriminate].
  destruct (F64.leb (F64.abs r) _MAX_ABS_RESULT) eqn:Le; [|discriminate].
  intros E; inversion E; subst v. split; assumption.
Qed.

(** A value that a binary node returns passed the range check. *)
Lemma eval_binop_in_range (op : operator) (a b v : float) :
  eval_binop H op a b = Ok v ->
  F64.is_finite v = true /\ F64.leb (F64.abs v) _MAX_ABS_RESULT = true.
Proof.
  unfold eval_binop.
  destruct (_ALLOWED_BINOPS H op) as [f|]; [|discriminate].
  do 2 (break_if; [discriminate|]).
  apply finish_binop_in_range.
Qed.

Lemma binop_node_in_range (l r : node) (op : operator) (v : float) :
  _eval H (BinOp l op r) = Ok v ->
  F64.is_finite v = true /\ F64.leb (F64.abs v) _MAX_ABS_RESULT = true.
Proof.
  cbn [_eval].
  destruct (_eval H l) as [a|]; cbn [bind]; [|discriminate].
  destruct (_eval H r) as [b|]; cbn [bind]; [|discriminate].
  apply eval_binop_in_range.
Qed.

(** *** Unfolding the evaluator on a parsed string *)

Lemma safe_eval_parsed (s : string) (e : node) :
  (String.eqb s EmptyString || String.eqb (strip s) EmptyString)%bool = false ->
  arith_parse s = Some e ->
  safe_eval H s = _eval H e.
Proof.
  intros E P. unfold safe_eval, ast_parse. rewrite E, P. reflexivity.
Qed.

Lemma eval_binop_node (l r : node) (op : operator) (a b : float) :
  _eval H l = Ok a ->
  _eval H r = Ok b ->
  _eval H (BinOp l op r) = eval_binop H op a b.
Proof.
  intros Hl Hr. cbn [_eval]. rewrite Hl, Hr. reflexivity.
Qed.

Lemma eval_binop_exponent_too_large (a b : float) :
  float_gt_int (F64.abs b) _MAX_ABS_EXPONENT = true ->
  eval_binop H Pow a b = Raise (ValueError "Exponent too large (abs > 10).").
Proof.
  intros G. unfold eval_binop. cbn [_ALLOWED_BINOPS is_Pow andb].
  rewrite G. reflexivity.
Qed.

Lemma eval_binop_base_too_large (a b : float) :
  float_gt_int (F64.abs b) _MAX_ABS_EXPONENT = false ->
  F64.ltb _MAX_ABS_BASE_FOR_POW (F64.abs a) = true ->
  eval_binop H Pow a b
  = Raise (ValueError "Base too large for exponentiation.").
Proof.
  intros G1 G2. unfold eval_binop. cbn [_ALLOWED_BINOPS is_Pow andb].
  rewrite G1, G2. reflexivity.
Qed.

Lemma eval_binop_pow (a b : float) :
  float_gt_int (F64.abs b) _MAX_ABS_EXPONENT = false ->
  F64.ltb _MAX_ABS_BASE_FOR_POW (F64.abs a) = false ->
  eval_binop H Pow a b = finish_binop (float_pow H a b).
Proof.
  intros G1 G2. unfold eval_binop. cbn [_ALLOWED_BINOPS is_Pow andb].
  rewrite G1, G2. reflexivity.
Qed.

Lemma eval_binop_other (op : operator) f (a b : float) :
  is_Pow op = false ->
  _ALLOWED_BINOPS H op = Some f ->
  eval_binop H op a b = finish_binop (f a b).
Proof.
  intros P F. unfold eval_binop. rewrite F, P. reflexivity.
Qed.

End Evaluator.

(** [safe_eval H s] for a string [s] of the fragment becomes [_eval] on
    its tree. *)
Ltac parse_string :=
  erewrite safe_eval_parsed;
  [ | vm_compute; reflexivity | vm_compute; reflexivity ].

(** Replaces a closed term by its value. *)
Ltac compute_closed t :=
  let v := eval vm_compute in t in change t with v.

(** ** C1: range of the successful results *)

(** C1.  The range check of [_eval] sits in the [ast.BinOp] branch only:
    the bare literal [1e999] is returned as infinity, [1e13] and
    [-1e13] are returned although their magnitude exceeds [1e12], and a
    locked infinity then makes [round] raise out of [on_check_answer].
    So not every successful result of [safe_eval] is finite and within
    [1e12]. *)
Theorem C1_literal_escapes_range_check (H : host) :
  safe_eval H "1e999" = Ok F64.pos_inf
  /\ F64.is_finite F64.pos_inf = false
  /\ safe_eval H "1e13" = Ok (lit "1e13")
  /\ F64.leb (F64.abs (lit "1e13")) _MAX_ABS_RESULT = false
  /\ safe_eval H "-1e13" = Ok (lit "-1e13")
  /\ F64.leb (F64.abs (lit "-1e13")) _MAX_ABS_RESULT = false
  /\ snd (on_check_answer H (locked "1e999" F64.pos_inf "1e999" "1"))
     = Escaped (OverflowError "cannot convert float infinity to integer").
Proof.
  repeat split; vm_compute; reflexivity.
Qed.

(** ** C2: the exceptions that leave [safe_eval] *)

Lemma safe_eval_complex_power (H : host) :
  safe_eval H "(-8)**0.5"
  = if complex_pow_overflows H (lit "-8") (lit "0.5")
    then Raise (OverflowError "complex exponentiation")
    else Raise (TypeError "must be real number, not complex").
Proof.
  parse_string.
  erewrite eval_binop_node by (vm_compute; reflexivity).
  rewrite eval_binop_pow by (vm_compute; reflexivity).
  replace (float_pow H _ _)
    with (if complex_pow_overflows H (lit "-8") (lit "0.5")
          then Raise (OverflowError "complex exponentiation")
          else Ok PyComplex)
    by (vm_compute; reflexivity).
  destruct (complex_pow_overflows H _ _); reflexivity.
Qed.

(** C2.  On [(-8)**0.5] the power is complex, or overflows as a complex
    power: [safe_eval] raises a [TypeError] from [math.isfinite], or an
    [OverflowError], and never a [ValueError]; [on_set_equation], which
    handles [ValueError] only, lets it through.  An integer constant
    beyond the floats raises [OverflowError] as well. *)
Theorem C2_complex_power_escapes (H : host) :
  (safe_eval H "(-8)**0.5"
   = Raise (TypeError "must be real number, not complex")
   \/ safe_eval H "(-8)**0.5" = Raise (OverflowError "complex exponentiation"))
  /\ (forall e, safe_eval H "(-8)**0.5" = Raise e -> classified e = false)
  /\ (forall v, safe_eval H "(-8)**0.5" <> Ok v)
  /\ (exists e,
        snd (on_set_equation H
               (locked EmptyString F64.pos_zero "(-8)**0.5" EmptyString))
        = Escaped e)
  /\ _eval H (Constant (CInt (10 ^ 400)))
     = Raise (OverflowError "int too large to convert to float").
Proof.
  pose proof (safe_eval_complex_power H) as E.
  assert (S : strip "(-8)**0.5" = "(-8)**0.5") by (vm_compute; reflexivity).
  split; [|split; [|split; [|split]]].
  - rewrite E. destruct (complex_pow_overflows H _ _); auto.
  - intros e. rewrite E.
    destruct (complex_pow_overflows H _ _); intros R; inversion R; reflexivity.
  - intros v. rewrite E.
    destruct (complex_pow_overflows H _ _); discriminate.
  - unfold on_set_equation, locked. cbn [eq_input set_feedback].
    rewrite S. cbn [String.eqb Ascii.eqb Bool.eqb]. rewrite E.
    destruct (complex_pow_overflows H _ _); eexists; reflexivity.
  - vm_compute. reflexivity.
Qed.

(** ** C10: booleans as numeric constants *)

(** C10.  [True] and [False] parse to constants whose value is a [bool],
    which the test [isinstance(node.value, (int, float))] admits:
    [safe_eval("True")] is [1.0], [safe_eval("False")] is [0.0], and
    [safe_eval("True+1")] is [2.0]. *)
Theorem C10_boolean_literals_accepted (H : host) :
  arith_parse "True" = Some (Constant (CBool true))
  /\ arith_parse "False" = Some (Constant (CBool false))
  /\ (forall b : bool,
        _eval H (Constant (CBool b)) = Ok (if b then lit "1.0" else lit "0.0"))
  /\ safe_eval H "True" = Ok (lit "1.0")
  /\ safe_eval H "False" = Ok (lit "0.0")
  /\ safe_eval H "True+1" = Ok (lit "2.0").
Proof.
  split; [|split; [|split; [|split; [|split]]]].
  3: intros [].
  all: vm_compute; reflexivity.
Qed.

(** ** C6: the examples of the specification *)

(** C6.  On a platform whose [pow] is exact at [5.0 ** 2.0],
    [safe_eval] gives [4.0] on [2+2], [4.5] on [3*(4-1)/2], [25.0] on
    [5**2], [3.0] on [10//3] and [1.0] on [7 % 3]. *)
Theorem C6_reference_results (H : host) :
  libm_pow H (lit "5.0") (lit "2.0") = (lit "25.0", ENONE) ->
  safe_eval H "2+2" = Ok (lit "4.0")
  /\ safe_eval H "3*(4-1)/2" = Ok (lit "4.5")
  /\ safe_eval H "5**2" = Ok (lit "25.0")
  /\ safe_eval H "10//3" = Ok (lit "3.0")
  /\ safe_eval H "7 % 3" = Ok (lit "1.0").
Proof.
  intros Hpow.
  split; [|split; [|split; [|split]]].
  1, 2, 4, 5: vm_compute; reflexivity.
  parse_string.
  erewrite eval_binop_node by (vm_compute; reflexivity).
  rewrite eval_binop_pow by (vm_compute; reflexivity).
  replace (float_pow H _ _) with (@Ok pyobj (PyFloat (lit "25.0"))).
  - vm_compute. reflexivity.
  - vm_compute. vm_compute in Hpow. rewrite Hpow. reflexivity.
Qed.

Lemma C6_reference_results_witness :
  safe_eval ref_host "2+2" = Ok (lit "4.0")
  /\ safe_eval ref_host "3*(4-1)/2" = Ok (lit "4.5")
  /\ safe_eval ref_host "5**2" = Ok (lit "25.0")
  /\ safe_eval ref_host "10//3" = Ok (lit "3.0")
  /\ safe_eval ref_host "7 % 3" = Ok (lit "1.0").
Proof.
  apply (C6_reference_results ref_host). vm_compute. reflexivity.
Defined.

(** ** C9: the division problems of the generator *)

Lemma randint_cases (P : Z -> Prop) (z : Z) :
  1 <= z <= 12 -> Forall P randint_1_12 -> P z.
Proof.
  intros B F. assert (I : In z randint_1_12) by (simpl; lia).
  revert I. apply Forall_forall. exact F.
Qed.

(** C9.  For a divisor and a quotient drawn in [1..12], the string that
    [generate_easy_problem] builds for [/] evaluates to the float of
    the quotient, which is that integer exactly. *)
Theorem C9_generated_division_exact (H : host) (divisor quotient : Z) :
  1 <= divisor <= 12 ->
  1 <= quotient <= 12 ->
  generate_easy_problem "/" divisor quotient
  = (str_of_int (divisor * quotient) ++ "/" ++ str_of_int divisor)%string
  /\ safe_eval H (generate_easy_problem "/" divisor quotient)
     = Ok (F64.of_Z quotient)
  /\ float_of_int quotient = Ok (F64.of_Z quotient)
  /\ py_round (F64.of_Z quotient) = Ok quotient.
Proof.
  intros Bd Bq. split; [reflexivity|].
  revert quotient Bq.
  apply (randint_cases
           (fun d => forall q, 1 <= q <= 12 ->
              safe_eval H (generate_easy_problem "/" d q) = Ok (F64.of_Z q)
              /\ float_of_int q = Ok (F64.of_Z q)
              /\ py_round (F64.of_Z q) = Ok q) divisor Bd).
  unfold randint_1_12; repeat apply Forall_cons; try apply Forall_nil;
    intros q Bq;
    apply (randint_cases
             (fun q => safe_eval H (generate_easy_problem "/" _ q)
                       = Ok (F64.of_Z q)
                       /\ float_of_int q = Ok (F64.of_Z q)
                       /\ py_round (F64.of_Z q) = Ok q) q Bq);
    unfold randint_1_12; repeat apply Forall_cons; try apply Forall_nil;
    (split; [|split]); vm_compute; reflexivity.
Qed.

Lemma C9_generated_division_exact_witness :
  generate_easy_problem "/" 3 4 = "12/3"
  /\ safe_eval ref_host (generate_easy_problem "/" 3 4) = Ok (F64.of_Z 4)
  /\ float_of_int 4 = Ok (F64.of_Z 4)
  /\ py_round (F64.of_Z 4) = Ok 4.
Proof.
  apply (C9_generated_division_exact ref_host 3 4); lia.
Defined.

(** ** C4 and C5: the guards of the power and the division by zero *)

Section Guards.

Variable H : host.

(** The [ValueError]s that the end of the [ast.BinOp] branch can
    raise. *)
Lemma finish_binop_message (op : operator) f (a b : float) (m : string) :
  _ALLOWED_BINOPS H op = Some f ->
  finish_binop (f a b) = Raise (ValueError m) ->
  m = "Division by zero."
  \/ m = "Result out of allowed range or not finite."
  \/ m = "(33, 'Numerical argument out of domain')".
Proof.
  intros A. unfold finish_binop.
  destruct (f a b) as [[r|]|[m'|m'|m'|m']] eqn:E;
    cbn [math_isfinite bind]; try discriminate.
  - break_if; [discriminate|]. intros R; inversion R. auto.
  - intros R; inversion R; subst m'. right; right.
    eapply allowed_binop_ValueError; eassumption.
  - intros R; inversion R. auto.
Qed.

(** [finish_binop] reports a division by zero exactly on a
    [ZeroDivisionError]. *)
Lemma finish_binop_division_by_zero (op : operator) f (a b : float) :
  _ALLOWED_BINOPS H op = Some f ->
  finish_binop (f a b) = Raise (ValueError "Division by zero.")
  <-> exists m, f a b = Raise (ZeroDivisionError m).
Proof.
  intros A. split.
  - unfold finish_binop.
    destruct (f a b) as [[r|]|[m'|m'|m'|m']] eqn:E;
      cbn [math_isfinite bind]; try discriminate.
    + break_if; discriminate.
    + intros R; inversion R; subst m'.
      apply (allowed_binop_ValueError H op f a b _ A) in E. discriminate.
    + intros _. eexists; reflexivity.
  - intros [m E]. rewrite E. reflexivity.
Qed.

Lemma float_pow_ZeroDivisionError (a b : float) :
  (exists m, float_pow H a b = Raise (ZeroDivisionError m))
  <-> F64.eqb a F64.pos_zero = true
      /\ F64.ltb b F64.pos_zero = true
      /\ F64.is_inf b = false.
Proof.
  split.
  - intros [m E]. revert E. unfold float_pow.
    repeat break_if; try discriminate;
      try (intros _; repeat split; assumption).
    all: destruct (libm_pow H (F64.abs a) b) as [ix e];
      destruct (adjust_erange1 ix e); discriminate.
  - intros (Za & Nb & Ib).
    destruct a as [sa|[]| |[] ma ea]; try (cbv in Za; discriminate).
    destruct b as [sb|[]| |[] mb eb];
      try (cbv in Nb; discriminate); try (cbv in Ib; discriminate).
    eexists. reflexivity.
Qed.

Lemma zero_division_of_operator (op : operator) f (a b : float) :
  is_Pow op = false ->
  _ALLOWED_BINOPS H op = Some f ->
  (exists m, f a b = Raise (ZeroDivisionError m))
  <-> (op = Div \/ op = FloorDiv \/ op = Mod)
      /\ F64.eqb b F64.pos_zero = true.
Proof.
  intros P A.
  destruct op; cbn [_ALLOWED_BINOPS is_Pow] in A, P; try discriminate;
    inversion A; subst f;
    unfold lift, float_div, float_rem, float_floor_div; split.
  all: try (intros [m E]; discriminate).
  all: try (intros [[D|[D|D]] Z]; discriminate).
  all: try solve [intros [m E]; destruct (F64.eqb b F64.pos_zero);
                  [auto | discriminate]].
  all: intros [_ Z]; rewrite Z; eexists; reflexivity.
Qed.

End Guards.

(** C4.  At a power node whose operands evaluate to [a] and [b], the
    evaluator fails with "Exponent too large" exactly when [|b| > 10],
    and otherwise with "Base too large" exactly when [|a| > 1e6]; the
    magnitudes [10] and [1e6] themselves pass.  [2**20] fails on its
    exponent and [1e7**2] on its base. *)
Theorem C4_power_guards (H : host) (l r : node) (a b : float) :
  _eval H l = Ok a ->
  _eval H r = Ok b ->
  (_eval H (BinOp l Pow r)
   = Raise (ValueError "Exponent too large (abs > 10).")
   <-> float_gt_int (F64.abs b) _MAX_ABS_EXPONENT = true)
  /\ (_eval H (BinOp l Pow r)
      = Raise (ValueError "Base too large for exponentiation.")
      <-> float_gt_int (F64.abs b) _MAX_ABS_EXPONENT = false
          /\ F64.ltb _MAX_ABS_BASE_FOR_POW (F64.abs a) = true)
  /\ _MAX_ABS_EXPONENT = 10
  /\ _MAX_ABS_BASE_FOR_POW = lit "1e6"
  /\ float_gt_int (F64.abs (lit "10")) _MAX_ABS_EXPONENT = false
  /\ float_gt_int (F64.abs (lit "-10")) _MAX_ABS_EXPONENT = false
  /\ F64.ltb _MAX_ABS_BASE_FOR_POW (F64.abs (lit "1e6")) = false
  /\ F64.ltb _MAX_ABS_BASE_FOR_POW (F64.abs (lit "-1e6")) = false
  /\ safe_eval H "2**20"
     = Raise (ValueError "Exponent too large (abs > 10).")
  /\ safe_eval H "1e7**2"
     = Raise (ValueError "Base too large for exponentiation.").
Proof.
  intros Hl Hr. rewrite (eval_binop_node H l r Pow a b Hl Hr).
  split; [|split].
  - split; [|apply eval_binop_exponent_too_large].
    intros E.
    destruct (float_gt_int (F64.abs b) _MAX_ABS_EXPONENT) eqn:G1;
      [reflexivity|exfalso].
    destruct (F64.ltb _MAX_ABS_BASE_FOR_POW (F64.abs a)) eqn:G2.
    + rewrite eval_binop_base_too_large in E by assumption. discriminate.
    + rewrite eval_binop_pow in E by assumption.
      apply finish_binop_message with (H := H) (op := Pow) in E;
        [|reflexivity].
      destruct E as [E|[E|E]]; discriminate.
  - split; [|intros [G1 G2]; apply eval_binop_base_too_large; assumption].
    intros E.
    destruct (float_gt_int (F64.abs b) _MAX_ABS_EXPONENT) eqn:G1.
    + rewrite eval_binop_exponent_too_large in E by assumption.
      discriminate.
    + split; [reflexivity|].
      destruct (F64.ltb _MAX_ABS_BASE_FOR_POW (F64.abs a)) eqn:G2;
        [reflexivity|exfalso].
      rewrite eval_binop_pow in E by assumption.
      apply finish_binop_message with (H := H) (op := Pow) in E;
        [|reflexivity].
      destruct E as [E|[E|E]]; discriminate.
  - repeat split; vm_compute; reflexivity.
Qed.

Lemma C4_power_guards_witness :
  _eval ref_host (BinOp (Constant (CInt 2)) Pow (Constant (CInt 20)))
  = Raise (ValueError "Exponent too large (abs > 10).")
  <-> float_gt_int (F64.abs (F64.of_Z 20)) _MAX_ABS_EXPONENT = true.
Proof.
  apply (C4_power_guards ref_host (Constant (CInt 2)) (Constant (CInt 20))
           (F64.of_Z 2) (F64.of_Z 20)); vm_compute; reflexivity.
Defined.

(** C5, as the code has it.  At a binary node whose operands evaluate
    to [a] and [b], the evaluator fails with "Division by zero." exactly
    when the operator is [/], [//] or [%] and [b] is zero, or the
    operator is [**], [a] is zero, [b] is negative and within the
    exponent guard.  [1/0], [5//0] and [5%0] fail so, and [0**-1]
    too. *)
Theorem C5_division_by_zero (H : host) (l r : node) (op : operator)
  (a b : float) :
  _eval H l = Ok a ->
  _eval H r = Ok b ->
  (_eval H (BinOp l op r) = Raise (ValueError "Division by zero.")
   <-> ((op = Div \/ op = FloorDiv \/ op = Mod)
        /\ F64.eqb b F64.pos_zero = true)
       \/ (op = Pow
           /\ F64.eqb a F64.pos_zero = true
           /\ F64.ltb b F64.pos_zero = true
           /\ float_gt_int (F64.abs b) _MAX_ABS_EXPONENT = false))
  /\ safe_eval H "1/0" = Raise (ValueError "Division by zero.")
  /\ safe_eval H "5//0" = Raise (ValueError "Division by zero.")
  /\ safe_eval H "5%0" = Raise (ValueError "Division by zero.")
  /\ safe_eval H "0**-1" = Raise (ValueError "Division by zero.").
Proof.
  intros Hl Hr. rewrite (eval_binop_node H l r op a b Hl Hr).
  split.
  - destruct (is_Pow op) eqn:P.
    + destruct op; try discriminate. split.
      * intros E.
        destruct (float_gt_int (F64.abs b) _MAX_ABS_EXPONENT) eqn:G1.
        { rewrite eval_binop_exponent_too_large in E by assumption.
          discriminate. }
        destruct (F64.ltb _MAX_ABS_BASE_FOR_POW (F64.abs a)) eqn:G2.
        { rewrite eval_binop_base_too_large in E by assumption.
          discriminate. }
        rewrite eval_binop_pow in E by assumption.
        apply finish_binop_division_by_zero with (H := H) (op := Pow) in E;
          [|reflexivity].
        apply float_pow_ZeroDivisionError in E.
        destruct E as (Za & Nb & _). right. auto.
      * intros [[[D|[D|D]] _]|(_ & Za & Nb & G1)]; try discriminate.
        assert (G2 : F64.ltb _MAX_ABS_BASE_FOR_POW (F64.abs a) = false).
        { destruct a as [sa|[]| |[] ma ea]; try (cbv in Za; discriminate).
          reflexivity. }
        assert (Ib : F64.is_inf b = false).
        { destruct b as [sb|[]| |sb mb eb]; try reflexivity.
          - cbv in Nb. discriminate.
          - vm_compute in G1. discriminate. }
        rewrite eval_binop_pow by assumption.
        apply finish_binop_division_by_zero with (H := H) (op := Pow);
          [reflexivity|].
        apply float_pow_ZeroDivisionError. auto.
    + destruct (_ALLOWED_BINOPS H op) as [f|] eqn:A.
      * rewrite (eval_binop_other H op f a b P A).
        rewrite (finish_binop_division_by_zero H op f a b A).
        rewrite (zero_division_of_operator H op f a b P A).
        split; [auto|].
        intros [D|(D & _)]; [assumption|].
        subst op. discriminate.
      * unfold eval_binop. rewrite A. split; [discriminate|].
        intros [[[D|[D|D]] _]|(D & _)]; subst op; discriminate.
  - repeat split; vm_compute; reflexivity.
Qed.

Lemma C5_division_by_zero_witness :
  _eval ref_host (BinOp (Constant (CInt 1)) Div (Constant (CInt 0)))
  = Raise (ValueError "Division by zero.")
  <-> ((Div = Div \/ Div = FloorDiv \/ Div = Mod)
       /\ F64.eqb (F64.of_Z 0) F64.pos_zero = true)
      \/ (Div = Pow
          /\ F64.eqb (F64.of_Z 1) F64.pos_zero = true
          /\ F64.ltb (F64.of_Z 0) F64.pos_zero = true
          /\ float_gt_int (F64.abs (F64.of_Z 0)) _MAX_ABS_EXPONENT = false).
Proof.
  apply (C5_division_by_zero ref_host (Constant (CInt 1))
           (Constant (CInt 0)) Div (F64.of_Z 1) (F64.of_Z 0));
    vm_compute; reflexivity.
Defined.

(** C5 as stated fails: the power operator produces the division by
    zero error on [0**-1]. *)
Lemma C5_counterexample :
  safe_eval ref_host "0**-1" = Raise (ValueError "Division by zero.")
  /\ arith_parse "0**-1"
     = Some (BinOp (Constant (CInt 0)) Pow (UnaryOp USub (Constant (CInt 1)))).
Proof.
  split; vm_compute; reflexivity.
Qed.

(** ** C3: the comparator *)

(** [math.isclose] at the tolerance of the answer check, unfolded:
    equal values are close, an infinity is close to nothing else, and
    otherwise the distance is compared with the two relative bounds and
    the absolute one. *)
Lemma math_isclose_formula (a b : float) :
  math_isclose a b rel_abs_tol rel_abs_tol
  = Ok (F64.eqb a b
        || negb (F64.is_inf a || F64.is_inf b)
           && (F64.leb (F64.abs (F64.sub b a))
                 (F64.abs (F64.mul rel_abs_tol b))
               || F64.leb (F64.abs (F64.sub b a))
                    (F64.abs (F64.mul rel_abs_tol a))
               || F64.leb (F64.abs (F64.sub b a)) rel_abs_tol)).
Proof.
  unfold math_isclose.
  replace (F64.ltb rel_abs_tol F64.pos_zero) with false
    by (vm_compute; reflexivity).
  cbn [orb].
  destruct (F64.eqb a b); [reflexivity|].
  destruct (F64.is_inf a || F64.is_inf b); reflexivity.
Qed.

(** C3, as the code has it.  [compare(4.0, 4.0)] is correct;
    [compare(4.0, 4.00000001)] is incorrect, since the distance [1e-8]
    exceeds the tolerance, which is about [4e-9], and displays [4];
    [compare(4.0, 4.000000001)] is correct; [compare(4.5, 4.0)] is
    incorrect and displays [4.5]; [compare(4.0, 3.9)] is incorrect and
    displays the integer [4]. *)
Theorem C3_comparator_examples :
  compare_feedback (lit "4.0") (lit "4.0") = Ok "✅ Correct!"
  /\ compare_feedback (lit "4.0") (lit "4.00000001")
     = Ok "❌ Incorrect. The correct answer is 4."
  /\ compare_feedback (lit "4.0") (lit "4.000000001") = Ok "✅ Correct!"
  /\ compare_feedback (lit "4.5") (lit "4.0")
     = Ok "❌ Incorrect. The correct answer is 4.5."
  /\ compare_feedback (lit "4.0") (lit "3.9")
     = Ok "❌ Incorrect. The correct answer is 4."
  /\ rel_abs_tol = lit "1e-9"
  /\ rel_abs_tol_int = lit "1e-12"
  /\ (forall a b : float,
        math_isclose a b rel_abs_tol rel_abs_tol
        = Ok (F64.eqb a b
              || negb (F64.is_inf a || F64.is_inf b)
                 && (F64.leb (F64.abs (F64.sub b a))
                       (F64.abs (F64.mul rel_abs_tol b))
                     || F64.leb (F64.abs (F64.sub b a))
                          (F64.abs (F64.mul rel_abs_tol a))
                     || F64.leb (F64.abs (F64.sub b a)) rel_abs_tol))).
Proof.
  split; [|split; [|split; [|split; [|split; [|split; [|split]]]]]].
  8: exact math_isclose_formula.
  all: vm_compute; reflexivity.
Qed.

(** C3 as stated fails: [4.00000001] is not within the tolerance of
    [4.0]; the distance is above each of the three bounds. *)
Lemma C3_counterexample :
  compare_feedback (lit "4.0") (lit "4.00000001")
  = Ok "❌ Incorrect. The correct answer is 4."
  /\ math_isclose (lit "4.00000001") (lit "4.0") rel_abs_tol rel_abs_tol
     = Ok false
  /\ feedback (fst (on_check_answer ref_host
                      (locked "2+2" (lit "4.0") "2+2" "4.00000001")))
     = "❌ Incorrect. The correct answer is 4.".
Proof.
  repeat split; vm_compute; reflexivity.
Qed.

(** ** C7 and C8: the callbacks *)

Lemma compare_feedback_first_byte (correct user_val : float) (fb : string) :
  compare_feedback correct user_val = Ok fb ->
  exists rest, fb = String "226" rest.
Proof.
  unfold compare_feedback.
  generalize rel_abs_tol_int, rel_abs_tol. intros ti t.
  destruct (py_round correct) as [n|]; cbn [bind]; [|intros E; inversion E].
  destruct (float_of_int n) as [fn|]; cbn [bind]; [|intros E; inversion E].
  destruct (math_isclose correct fn ti ti) as [[]|]; cbn [bind];
    [ destruct (math_isclose user_val fn t t) as [[]|]
    | destruct (math_isclose user_val correct t t) as [[]|]
    | ];
    cbn [bind]; intros E; inversion E; eexists; reflexivity.
Qed.

Lemma set_feedback_inj (st : session_state) (a b : string) :
  set_feedback st a = set_feedback st b -> a = b.
Proof.
  intros E. apply (f_equal feedback) in E. exact E.
Qed.

Section Callbacks.

Variable H : host.

Lemma check_value_not_could_not_parse (st : session_state) (v : float) :
  check_value st v <> (set_feedback st could_not_parse, Returned).
Proof.
  unfold check_value. destruct (correct_answer st) as [c|].
  - destruct (compare_feedback c v) as [fb|e] eqn:E; [|discriminate].
    intros Q. apply (f_equal fst) in Q. cbn [fst] in Q.
    apply set_feedback_inj in Q.
    apply compare_feedback_first_byte in E. destruct E as [rest E].
    subst fb. discriminate.
  - intros Q. apply (f_equal fst) in Q. cbn [fst] in Q.
    apply set_feedback_inj in Q. discriminate.
Qed.

Lemma check_value_keeps_lock (st : session_state) (v : float) :
  correct_answer (fst (check_value st v)) = correct_answer st
  /\ eq_text (fst (check_value st v)) = eq_text st.
Proof.
  unfold check_value. destruct (correct_answer st) as [c|] eqn:C.
  - destruct (compare_feedback c v); cbn; rewrite ?C; split; reflexivity.
  - cbn. rewrite C. split; reflexivity.
Qed.

Lemma on_check_answer_keeps_lock (st : session_state) :
  correct_answer (fst (on_check_answer H st)) = correct_answer st
  /\ eq_text (fst (on_check_answer H st)) = eq_text st.
Proof.
  unfold on_check_answer.
  destruct (String.eqb (strip (user_answer_input st)) EmptyString);
    [split; reflexivity|].
  destruct (safe_eval H (user_answer_input st)) as [v|[]].
  2: destruct (float_of_str H (user_answer_input st)) as [v|].
  all: try apply check_value_keeps_lock.
  all: split; reflexivity.
Qed.

End Callbacks.

Lemma could_not_parse_only_after_both (H : host) (st : session_state) :
  on_check_answer H st = (set_feedback st could_not_parse, Returned) ->
  (exists m, safe_eval H (user_answer_input st) = Raise (ValueError m))
  /\ float_of_str H (user_answer_input st) = None.
Proof.
  unfold on_check_answer.
  destruct (String.eqb (strip (user_answer_input st)) EmptyString).
  { intros Q. apply (f_equal fst) in Q. cbn [fst] in Q.
    apply set_feedback_inj in Q. discriminate. }
  destruct (safe_eval H (user_answer_input st)) as [v|[m|m|m|m]];
    try discriminate.
  - intros Q. apply check_value_not_could_not_parse in Q. contradiction.
  - destruct (float_of_str H (user_answer_input st)) as [v|].
    + intros Q. apply check_value_not_could_not_parse in Q. contradiction.
    + intros _. split; [eexists|]; reflexivity.
Qed.

(** C7.  When [safe_eval] raises a [ValueError] on a non-blank answer,
    [on_check_answer] reads the raw string with [float]: if that fails
    too, the feedback is "Could not parse your answer as a number" and
    nothing else changes; if it succeeds, the check goes on with that
    value.  That feedback is set only after both have failed. *)
Theorem C7_answer_fallback (H : host) (st : session_state) (msg : string) :
  String.eqb (strip (user_answer_input st)) EmptyString = false ->
  safe_eval H (user_answer_input st) = Raise (ValueError msg) ->
  (float_of_str H (user_answer_input st) = None ->
   on_check_answer H st = (set_feedback st could_not_parse, Returned))
  /\ (forall v, float_of_str H (user_answer_input st) = Some v ->
                on_check_answer H st = check_value st v)
  /\ (forall st',
        on_check_answer H st' = (set_feedback st' could_not_parse, Returned) ->
        (exists m, safe_eval H (user_answer_input st') = Raise (ValueError m))
        /\ float_of_str H (user_answer_input st') = None)
  /\ could_not_parse
     = "Could not parse your answer as a number. Try `1.5` or `3/4`.".
Proof.
  intros B E. unfold on_check_answer. rewrite B, E.
  split; [|split; [|split]].
  - intros F. rewrite F. reflexivity.
  - intros v F. rewrite F. reflexivity.
  - intros st'. apply could_not_parse_only_after_both.
  - reflexivity.
Qed.

Lemma C7_answer_fallback_witness :
  on_check_answer ref_host (locked "2+2" (lit "4.0") "2+2" " 4")
  = check_value (locked "2+2" (lit "4.0") "2+2" " 4") (lit "4").
Proof.
  assert (B : String.eqb (strip " 4") EmptyString = false)
    by (vm_compute; reflexivity).
  assert (E : safe_eval ref_host " 4"
              = Raise (ValueError "Syntax error: invalid syntax"))
    by (vm_compute; reflexivity).
  destruct (C7_answer_fallback ref_host
              (locked "2+2" (lit "4.0") "2+2" " 4") _ B E) as (_ & S & _).
  apply S. vm_compute. reflexivity.
Defined.

(** C8, as the code has it.  A Set-equation call whose expression
    raises a [ValueError] in [safe_eval] clears the lock: the stored
    result becomes [None] and the stored text becomes empty, with the
    feedback "Invalid equation: ...".  The lock is held by
    [on_check_answer], and by [on_set_equation] on a blank input. *)
Theorem C8_lock_cleared_on_invalid_equation (H : host) (st : session_state)
  (msg : string) :
  String.eqb (strip (eq_input st)) EmptyString = false ->
  safe_eval H (strip (eq_input st)) = Raise (ValueError msg) ->
  on_set_equation H st
  = ({| correct_answer := None; eq_text := EmptyString;
        feedback := "Invalid equation: " ++ msg;
        eq_input := eq_input st;
        user_answer_input := user_answer_input st |}, Returned)
  /\ (forall st',
        correct_answer (fst (on_check_answer H st')) = correct_answer st'
        /\ eq_text (fst (on_check_answer H st')) = eq_text st')
  /\ (forall st',
        String.eqb (strip (eq_input st')) EmptyString = true ->
        on_set_equation H st'
        = (set_feedback st' "Please enter an equation first.", Returned)).
Proof.
  intros B E. split; [|split].
  - unfold on_set_equation. cbn [set_feedback eq_input user_answer_input].
    rewrite B, E. reflexivity.
  - apply on_check_answer_keeps_lock.
  - intros st' B'. unfold on_set_equation. rewrite B'.
    destruct st'; reflexivity.
Qed.

Lemma C8_lock_cleared_on_invalid_equation_witness :
  on_set_equation ref_host (locked "2+2" (lit "4.0") "1/0" "4")
  = ({| correct_answer := None; eq_text := EmptyString;
        feedback := "Invalid equation: Division by zero.";
        eq_input := "1/0";
        user_answer_input := "4" |}, Returned).
Proof.
  apply (C8_lock_cleared_on_invalid_equation ref_host
           (locked "2+2" (lit "4.0") "1/0" "4") "Division by zero.");
    vm_compute; reflexivity.
Defined.

(** C8 as stated fails: with [2+2] locked at [4.0], setting [1/0]
    leaves neither the text nor the result. *)
Lemma C8_counterexample :
  safe_eval ref_host "1/0" = Raise (ValueError "Division by zero.")
  /\ correct_answer
       (fst (on_set_equation ref_host
               (locked "2+2" (lit "4.0") "1/0" EmptyString)))
     = None
  /\ eq_text
       (fst (on_set_equation ref_host
               (locked "2+2" (lit "4.0") "1/0" EmptyString)))
     = EmptyString.
Proof.
  repeat split; vm_compute; reflexivity.
Qed.

(** * Further properties of the evaluator *)

Section EvaluatorFacts.

Variable H : host.

(** ** The allow-list *)

(** X1.  A tree that [_eval] evaluates contains only expressions, numeric
    constants, unary plus and minus, and the seven binary operators of
    [_ALLOWED_BINOPS]. *)
Theorem eval_success_is_allowed (n : node) (v : float) :
  _eval H n = Ok v -> allowed n = true.
Proof.
  revert v. induction n as [body IH|value|op operand IH|l IHl op r IHr|kind];
    intros v; cbn [_eval allowed].
  - apply IH.
  - destruct value; try discriminate; reflexivity.
  - destruct op; cbn [_ALLOWED_UNARYOPS]; try discriminate;
      (destruct (_eval H operand) as [x|]; [|discriminate]);
      intros _; eapply IH; reflexivity.
  - destruct (_eval H l) as [a|]; cbn [bind]; [|discriminate].
    destruct (_eval H r) as [b|]; cbn [bind]; [|discriminate].
    rewrite (IHl a eq_refl), (IHr b eq_refl).
    unfold eval_binop.
    destruct op; cbn [_ALLOWED_BINOPS]; try discriminate; reflexivity.
  - discriminate.
Qed.

(** ** The exceptions of the evaluator *)

Lemma float_pow_raises (a b : float) (e : exn) :
  float_pow H a b = Raise e ->
  (exists m, e = ZeroDivisionError m)
  \/ (exists m, e = OverflowError m)
  \/ e = ValueError "(33, 'Numerical argument out of domain')".
Proof.
  unfold float_pow.
  repeat break_if; try discriminate;
    try (intros E; inversion E; eauto; fail).
  all: destruct (libm_pow H (F64.abs a) b) as [ix er];
    destruct (adjust_erange1 ix er); intros E; inversion E; eauto.
Qed.

Lemma allowed_binop_raises (op : operator) f (a b : float) (e : exn) :
  _ALLOWED_BINOPS H op = Some f ->
  f a b = Raise e ->
  (exists m, e = ZeroDivisionError m)
  \/ (exists m, e = OverflowError m)
  \/ e = ValueError "(33, 'Numerical argument out of domain')".
Proof.
  destruct op; cbn [_ALLOWED_BINOPS]; intros A; inversion A; subst f;
    unfold lift, float_div, float_rem, float_floor_div;
    try apply float_pow_raises; try discriminate.
  all: destruct (F64.eqb b F64.pos_zero); intros E; inversion E; eauto.
Qed.






End EvaluatorFacts.


Lemma eval_success_is_allowed_witness :
  allowed (BinOp (BinOp (Constant (CInt 3)) Mult
                    (BinOp (Constant (CInt 4)) Sub (Constant (CInt 1))))
             Div (Constant (CInt 2))) = true.
Proof.
  apply (eval_success_is_allowed ref_host _ (lit "4.5")).
  vm_compute. reflexivity.
Defined.



(** ** Blank input *)

Lemma lstrip_bytes_blank (l : list N) :
  forallb ascii_space l = true -> lstrip_bytes l = [].
Proof.
  induction l as [|c l IH]; [reflexivity|].
  cbn [forallb lstrip_bytes]. intros B.
  apply andb_true_iff in B. destruct B as [C L].
  rewrite C. apply IH. exact L.
Qed.

(** X5.  A string made of blanks only (spaces, tabs, line ends and the
    other white space below U+0080), of any length, is rejected as
    "Empty expression." before it is parsed; the callbacks answer it
    with their prompts and leave the rest of the state as it is. *)
Theorem blank_input_rejected (H : host) (s : string) :
  forallb ascii_space (bytes_of s) = true ->
  safe_eval H s = Raise (ValueError "Empty expression.")
  /\ (forall st, eq_input st = s ->
        on_set_equation H st
        = (set_feedback st "Please enter an equation first.", Returned))
  /\ (forall st, user_answer_input st = s ->
        on_check_answer H st
        = (set_feedback st "Please type an answer first.", Returned)).
Proof.
  intros B.
  assert (S : strip s = EmptyString).
  { unfold strip, strip_bytes. rewrite (lstrip_bytes_blank _ B).
    reflexivity. }
  split; [|split].
  - unfold safe_eval. rewrite S. rewrite orb_true_r. reflexivity.
  - intros st <-. unfold on_set_equation. rewrite S.
    destruct st; reflexivity.
  - intros st <-. unfold on_check_answer. rewrite S. reflexivity.
Qed.

Lemma blank_input_rejected_witness :
  safe_eval ref_host "     " = Raise (ValueError "Empty expression.").
Proof.
  apply (blank_input_rejected ref_host "     "). vm_compute. reflexivity.
Defined.

(** ** Algebra of the operators *)

Lemma F64_opp_involutive (x : float) : F64.opp (F64.opp x) = x.
Proof. destruct x as [[]|[]| |[] m e]; reflexivity. Qed.

Lemma F64_add_comm (a b : float) : F64.add a b = F64.add b a.
Proof.
  destruct a as [sa|sa| |sa ma ea], b as [sb|sb| |sb mb eb];
    lazymatch goal with
    | |- F64.add (S754_finite _ _ _) (S754_finite _ _ _) = _ =>
      unfold F64.add, SFadd;
      rewrite (Z.min_comm ea eb), Z.add_comm; reflexivity
    | |- F64.add (S754_finite _ _ _) _ = _ => reflexivity
    | |- F64.add _ (S754_finite _ _ _) = _ => reflexivity
    | |- F64.add S754_nan _ = _ => reflexivity
    | |- F64.add _ S754_nan = _ => reflexivity
    | |- _ => destruct sa, sb; reflexivity
    end.
Qed.

Lemma F64_mul_comm (a b : float) : F64.mul a b = F64.mul b a.
Proof.
  destruct a as [sa|sa| |sa ma ea], b as [sb|sb| |sb mb eb];
    unfold F64.mul, SFmul;
    rewrite ?(xorb_comm sa sb), ?(Pos.mul_comm ma mb), ?(Z.add_comm ea eb);
    reflexivity.
Qed.

(** X9.  A double minus and a unary plus change nothing: [--x] and [+x]
    evaluate as [x] does, errors included. *)
Theorem unary_signs_cancel (H : host) (n : node) :
  _eval H (UnaryOp USub (UnaryOp USub n)) = _eval H n
  /\ _eval H (UnaryOp UAdd n) = _eval H n.
Proof.
  cbn [_eval _ALLOWED_UNARYOPS].
  destruct (_eval H n) as [x|e]; cbn [bind]; [|split; reflexivity].
  rewrite F64_opp_involutive. split; reflexivity.
Qed.

(** X10.  When both operands evaluate, a sum and a product do not depend on
    the order of the operands. *)
Theorem sum_and_product_commute (H : host) (l r : node) (a b : float) :
  _eval H l = Ok a ->
  _eval H r = Ok b ->
  _eval H (BinOp l Add r) = _eval H (BinOp r Add l)
  /\ _eval H (BinOp l Mult r) = _eval H (BinOp r Mult l).
Proof.
  intros Hl Hr.
  rewrite !(eval_binop_node H l r _ a b Hl Hr).
  rewrite !(eval_binop_node H r l _ b a Hr Hl).
  unfold eval_binop. cbn [_ALLOWED_BINOPS is_Pow andb]. unfold lift.
  rewrite (F64_add_comm a b), (F64_mul_comm a b). split; reflexivity.
Qed.

Lemma sum_and_product_commute_witness :
  _eval ref_host (BinOp (Constant (CFloat (lit "0.1"))) Add
                    (Constant (CInt 7)))
  = _eval ref_host (BinOp (Constant (CInt 7)) Add
                      (Constant (CFloat (lit "0.1"))))
  /\ _eval ref_host (BinOp (Constant (CFloat (lit "0.1"))) Mult
                       (Constant (CInt 7)))
     = _eval ref_host (BinOp (Constant (CInt 7)) Mult
                         (Constant (CFloat (lit "0.1")))).
Proof.
  apply (sum_and_product_commute ref_host _ _ (lit "0.1") (lit "7"));
    vm_compute; reflexivity.
Defined.

(** ** The range check *)

(** X6.  A value that a binary node returns is finite and of magnitude at
    most [1e12]. *)
Theorem binary_result_in_range (H : host) (l r : node) (op : operator)
  (v : float) :
  _eval H (BinOp l op r) = Ok v ->
  F64.is_finite v = true /\ F64.leb (F64.abs v) _MAX_ABS_RESULT = true.
Proof.
  cbn [_eval].
  destruct (_eval H l) as [a|]; cbn [bind]; [|discriminate].
  destruct (_eval H r) as [b|]; cbn [bind]; [|discriminate].
  apply eval_binop_in_range.
Qed.

Lemma binary_result_in_range_witness :
  F64.is_finite (lit "1e12") = true
  /\ F64.leb (F64.abs (lit "1e12")) _MAX_ABS_RESULT = true.
Proof.
  apply (binary_result_in_range ref_host
           (Constant (CFloat (lit "999999999999"))) (Constant (CInt 1)) Add).
  vm_compute. reflexivity.
Defined.

(** X7.  At a binary node with an allowed operator [f] and operands that
    evaluate to [a] and [b], the evaluator fails with "Result out of
    allowed range or not finite." exactly when the guards of the power
    pass and [f a b] is a float that is infinite, NaN, or of magnitude
    above [1e12]. *)
Theorem result_out_of_range (H : host) (l r : node) (op : operator) f
  (a b : float) :
  _eval H l = Ok a ->
  _eval H r = Ok b ->
  _ALLOWED_BINOPS H op = Some f ->
  (_eval H (BinOp l op r)
   = Raise (ValueError "Result out of allowed range or not finite.")
   <-> (is_Pow op = true ->
        float_gt_int (F64.abs b) _MAX_ABS_EXPONENT = false
        /\ F64.ltb _MAX_ABS_BASE_FOR_POW (F64.abs a) = false)
       /\ exists x, f a b = Ok (PyFloat x)
                    /\ (F64.is_finite x
                        && F64.leb (F64.abs x) _MAX_ABS_RESULT)%bool = false).
Proof.
  intros Hl Hr A. rewrite (eval_binop_node H l r op a b Hl Hr).
  unfold eval_binop. rewrite A.
  destruct (is_Pow op).
  - cbn [andb].
    destruct (float_gt_int (F64.abs b) _MAX_ABS_EXPONENT);
      [split; [discriminate|intros [G _]; destruct (G eq_refl); discriminate]|].
    destruct (F64.ltb _MAX_ABS_BASE_FOR_POW (F64.abs a));
      [split; [discriminate|intros [G _]; destruct (G eq_refl); discriminate]|].
    unfold finish_binop.
    destruct (f a b) as [[x|]|e] eqn:F; cbn [math_isfinite bind].
    + destruct (F64.is_finite x && F64.leb (F64.abs x) _MAX_ABS_RESULT)%bool
        eqn:C.
      * split; [discriminate|].
        intros [_ (y & E & Cy)]. inversion E; subst y. congruence.
      * split; [|reflexivity]. intros _. split; [auto|]. eauto.
    + split; [discriminate|]. intros [_ (y & E & _)]. discriminate.
    + split.
      * intros E.
        destruct (allowed_binop_raises H op f a b e A F)
          as [[m ->]|[[m ->]| ->]]; discriminate.
      * intros [_ (y & E & _)]. discriminate.
  - cbn [andb]. unfold finish_binop.
    destruct (f a b) as [[x|]|e] eqn:F; cbn [math_isfinite bind].
    + destruct (F64.is_finite x && F64.leb (F64.abs x) _MAX_ABS_RESULT)%bool
        eqn:C.
      * split; [discriminate|].
        intros [_ (y & E & Cy)]. inversion E; subst y. congruence.
      * split; [|reflexivity]. intros _. split; [discriminate|]. eauto.
    + split; [discriminate|]. intros [_ (y & E & _)]. discriminate.
    + split.
      * intros E.
        destruct (allowed_binop_raises H op f a b e A F)
          as [[m ->]|[[m ->]| ->]]; discriminate.
      * intros [_ (y & E & _)]. discriminate.
Qed.

Lemma result_out_of_range_witness :
  _eval ref_host (BinOp (Constant (CFloat (lit "1e12"))) Add
                    (Constant (CInt 1)))
  = Raise (ValueError "Result out of allowed range or not finite.").
Proof.
  assert (Hl : _eval ref_host (Constant (CFloat (lit "1e12")))
               = Ok (lit "1e12")) by reflexivity.
  assert (Hr : _eval ref_host (Constant (CInt 1)) = Ok (lit "1"))
    by (vm_compute; reflexivity).
  destruct (result_out_of_range ref_host _ _ Add (lift F64.add) _ _
              Hl Hr eq_refl) as [_ Back].
  apply Back. split; [discriminate|].
  exists (lit "1000000000001"). split; vm_compute; reflexivity.
Defined.

(** X8.  A base within the guard raised to a zero exponent gives [1.0], for
    a zero base too, whatever the C library does. *)
Theorem power_zero_exponent (H : host) (l r : node) (a : float) (s : bool) :
  _eval H l = Ok a ->
  _eval H r = Ok (S754_zero s) ->
  F64.ltb _MAX_ABS_BASE_FOR_POW (F64.abs a) = false ->
  _eval H (BinOp l Pow r) = Ok (lit "1.0").
Proof.
  intros Hl Hr G. rewrite (eval_binop_node H l r Pow a _ Hl Hr).
  rewrite eval_binop_pow; [|destruct s; vm_compute; reflexivity|exact G].
  replace (float_pow H a (S754_zero s)) with (@Ok pyobj (PyFloat (lit "1.0")))
    by (destruct s; vm_compute; reflexivity).
  vm_compute. reflexivity.
Qed.

Lemma power_zero_exponent_witness :
  _eval ref_host (BinOp (Constant (CInt 0)) Pow (Constant (CInt 0)))
  = Ok (lit "1.0").
Proof.
  apply (power_zero_exponent ref_host _ _ (lit "0") false);
    vm_compute; reflexivity.
Defined.

(** * Further properties of the page *)

(** ** Random problems *)

Lemma easy_problem_value (H : host) (op : string) (r1 r2 : Z) :
  In op easy_operators ->
  1 <= r1 <= 12 ->
  1 <= r2 <= 12 ->
  safe_eval H (generate_easy_problem op r1 r2)
  = Ok (F64.of_Z (easy_answer op r1 r2)).
Proof.
  intros O B1 B2. revert r2 B2.
  apply (randint_cases
           (fun a => forall b, 1 <= b <= 12 ->
              safe_eval H (generate_easy_problem op a b)
              = Ok (F64.of_Z (easy_answer op a b))) r1 B1).
  destruct O as [<-|[<-|[<-|[<-|[]]]]];
    unfold randint_1_12; repeat apply Forall_cons; try apply Forall_nil;
    intros b Bb; pattern b; apply (randint_cases _ b Bb);
    unfold randint_1_12; repeat apply Forall_cons; try apply Forall_nil;
    vm_compute; reflexivity.
Qed.

Lemma random_problem_state (H : host) (op : string) (r1 r2 : Z)
  (st : session_state) :
  In op easy_operators ->
  1 <= r1 <= 12 ->
  1 <= r2 <= 12 ->
  on_random_problem H op r1 r2 st
  = ({| correct_answer := Some (F64.of_Z (easy_answer op r1 r2));
        eq_text := generate_easy_problem op r1 r2;
        feedback := "Random problem set: `"
                    ++ generate_easy_problem op r1 r2
                    ++ "` — enter your answer.";
        eq_input := generate_easy_problem op r1 r2;
        user_answer_input := EmptyString |}, Returned).
Proof.
  intros O B1 B2. unfold on_random_problem.
  rewrite (easy_problem_value H op r1 r2 O B1 B2). reflexivity.
Qed.

(** X11.  For each of the four operators and every pair drawn in [1..12], the
    generated string evaluates to the float of the integer it stands
    for, so [on_random_problem] locks it and never reaches its branch
    for an invalid equation. *)
Theorem random_problem_locks (H : host) (op : string) (r1 r2 : Z)
  (st : session_state) :
  In op easy_operators ->
  1 <= r1 <= 12 ->
  1 <= r2 <= 12 ->
  safe_eval H (generate_easy_problem op r1 r2)
  = Ok (F64.of_Z (easy_answer op r1 r2))
  /\ on_random_problem H op r1 r2 st
     = ({| correct_answer := Some (F64.of_Z (easy_answer op r1 r2));
           eq_text := generate_easy_problem op r1 r2;
           feedback := "Random problem set: `"
                       ++ generate_easy_problem op r1 r2
                       ++ "` — enter your answer.";
           eq_input := generate_easy_problem op r1 r2;
           user_answer_input := EmptyString |}, Returned).
Proof.
  intros O B1 B2. split.
  - apply easy_problem_value; assumption.
  - apply random_problem_state; assumption.
Qed.

Lemma random_problem_locks_witness :
  safe_eval ref_host (generate_easy_problem "-" 3 11)
  = Ok (F64.of_Z (easy_answer "-" 3 11))
  /\ on_random_problem ref_host "-" 3 11 defaults
     = ({| correct_answer := Some (F64.of_Z (easy_answer "-" 3 11));
           eq_text := generate_easy_problem "-" 3 11;
           feedback := "Random problem set: `"
                       ++ generate_easy_problem "-" 3 11
                       ++ "` — enter your answer.";
           eq_input := generate_easy_problem "-" 3 11;
           user_answer_input := EmptyString |}, Returned).
Proof.
  apply (random_problem_locks ref_host "-" 3 11 defaults);
    [simpl; auto | lia | lia].
Defined.

(** X12.  After a random problem, the integer it stands for, typed as the
    answer, is judged "Correct!". *)
Theorem random_problem_answer_accepted (H : host) (op : string) (r1 r2 : Z)
  (st : session_state) :
  In op easy_operators ->
  1 <= r1 <= 12 ->
  1 <= r2 <= 12 ->
  feedback
    (fst (on_check_answer H
            (set_user_answer_input
               (fst (on_random_problem H op r1 r2 st))
               (str_of_int (easy_answer op r1 r2)))))
  = "✅ Correct!".
Proof.
  intros O B1 B2.
  rewrite (random_problem_state H op r1 r2 st O B1 B2).
  cbn [fst]. clear st. revert r2 B2.
  apply (randint_cases
           (fun a => forall b, 1 <= b <= 12 ->
              feedback
                (fst (on_check_answer H
                        (set_user_answer_input
                           {| correct_answer :=
                                Some (F64.of_Z (easy_answer op a b));
                              eq_text := generate_easy_problem op a b;
                              feedback := "Random problem set: `"
                                          ++ generate_easy_problem op a b
                                          ++ "` — enter your answer.";
                              eq_input := generate_easy_problem op a b;
                              user_answer_input := EmptyString |}
                           (str_of_int (easy_answer op a b)))))
              = "✅ Correct!") r1 B1).
  destruct O as [<-|[<-|[<-|[<-|[]]]]];
    unfold randint_1_12; repeat apply Forall_cons; try apply Forall_nil;
    intros b Bb; pattern b; apply (randint_cases _ b Bb);
    unfold randint_1_12; repeat apply Forall_cons; try apply Forall_nil;
    vm_compute; reflexivity.
Qed.

Lemma random_problem_answer_accepted_witness :
  feedback
    (fst (on_check_answer ref_host
            (set_user_answer_input
               (fst (on_random_problem ref_host "-" 3 11 defaults))
               (str_of_int (easy_answer "-" 3 11)))))
  = "✅ Correct!".
Proof.
  apply (random_problem_answer_accepted ref_host "-" 3 11 defaults);
    [simpl; auto | lia | lia].
Defined.

(** ** Answers that are not finite *)

Lemma isclose_non_finite (v x t : float) :
  F64.is_finite v = false ->
  F64.is_inf x = false ->
  F64.ltb t F64.pos_zero = false ->
  math_isclose v x t t = Ok false.
Proof.
  intros Fv Ix T. unfold math_isclose. rewrite T. cbn [orb].
  destruct v as [sv|sv| |sv mv ev]; try discriminate.
  - replace (F64.eqb (S754_infinity sv) x) with false
      by (destruct x as [sx|sx| |sx mx ex], sv; try discriminate;
          reflexivity).
    reflexivity.
  - replace (F64.eqb S754_nan x) with false by reflexivity.
    rewrite Ix. cbn [F64.is_inf orb].
    replace (F64.sub x S754_nan) with S754_nan
      by (destruct x; reflexivity).
    reflexivity.
Qed.

Lemma py_round_finite (c : float) (n : Z) :
  py_round c = Ok n -> F64.is_inf c = false.
Proof. destruct c; try discriminate; reflexivity. Qed.

Lemma float_of_int_not_inf (n : Z) (fn : float) :
  float_of_int n = Ok fn -> F64.is_inf fn = false.
Proof.
  unfold float_of_int. destruct (F64.is_inf (F64.of_Z n)) eqn:I;
    [discriminate|]. intros E; inversion E; subst fn. exact I.
Qed.

(** X13.  [float] reads [nan], [inf] and [-Infinity], but an answer that is
    not finite is never judged correct: whenever the comparison gives a
    feedback, it is the "Incorrect" one. *)
Theorem non_finite_answer_rejected (H : host) (correct user_val : float)
  (fb : string) :
  F64.is_finite user_val = false ->
  compare_feedback correct user_val = Ok fb ->
  (exists x, fb = ("❌ Incorrect. The correct answer is " ++ x ++ ".")%string)
  /\ float_of_str H "nan" = Some F64.nan
  /\ float_of_str H "inf" = Some F64.pos_inf
  /\ float_of_str H " -Infinity" = Some (F64.opp F64.pos_inf).
Proof.
  intros Fv E. split; [|repeat split; vm_compute; reflexivity].
  revert E. unfold compare_feedback.
  assert (T : F64.ltb rel_abs_tol F64.pos_zero = false)
    by (vm_compute; reflexivity).
  revert T. generalize rel_abs_tol_int, rel_abs_tol. intros ti t T.
  destruct (py_round correct) as [n|] eqn:R; cbn [bind]; [|discriminate].
  destruct (float_of_int n) as [fn|] eqn:F; cbn [bind]; [|discriminate].
  destruct (math_isclose correct fn ti ti) as [[]|]; cbn [bind];
    [| |discriminate].
  - rewrite (isclose_non_finite user_val fn t Fv
               (float_of_int_not_inf n fn F) T).
    cbn [bind]. intros E; inversion E. eexists. reflexivity.
  - rewrite (isclose_non_finite user_val correct t Fv
               (py_round_finite correct n R) T).
    cbn [bind]. intros E; inversion E. eexists. reflexivity.
Qed.

Lemma non_finite_answer_rejected_witness :
  exists x, "❌ Incorrect. The correct answer is 4."
            = ("❌ Incorrect. The correct answer is " ++ x ++ ".")%string.
Proof.
  apply (non_finite_answer_rejected ref_host (lit "4.0") F64.nan);
    vm_compute; reflexivity.
Defined.

(** ** The displayed answer *)

(** X14.  The number that "Show Correct Answer" displays is the one that the
    "Incorrect" feedback names: both snap an integer-like value to the
    integer. *)
Theorem shown_answer_agrees (correct user_val : float) (x : string) :
  compare_feedback correct user_val
  = Ok ("❌ Incorrect. The correct answer is " ++ x)%string ->
  correct_answer_text correct = Ok ("The correct answer is " ++ x)%string.
Proof.
  unfold compare_feedback, correct_answer_text.
  generalize rel_abs_tol_int, rel_abs_tol. intros ti t.
  destruct (py_round correct) as [n|]; cbn [bind]; [|discriminate].
  destruct (float_of_int n) as [fn|]; cbn [bind]; [|discriminate].
  destruct (math_isclose correct fn ti ti) as [[]|]; cbn [bind];
    [| |discriminate].
  - destruct (math_isclose user_val fn t t) as [[]|]; cbn [bind];
      [intros E; cbn [append] in E; inversion E| |discriminate].
    intros E. inversion E. reflexivity.
  - destruct (math_isclose user_val correct t t) as [[]|]; cbn [bind];
      [intros E; cbn [append] in E; inversion E| |discriminate].
    intros E. inversion E. reflexivity.
Qed.

Lemma shown_answer_agrees_witness :
  correct_answer_text (lit "4.5") = Ok "The correct answer is 4.5.".
Proof.
  apply (shown_answer_agrees (lit "4.5") (lit "4.0") "4.5.").
  vm_compute. reflexivity.
Defined.

(** ** How the feedback is displayed *)

Lemma compare_feedback_shapes (correct user_val : float) (fb : string) :
  compare_feedback correct user_val = Ok fb ->
  fb = "✅ Correct!"
  \/ fb = "✅ Correct (within tolerance)!"
  \/ exists x, fb = ("❌ Incorrect. The correct answer is " ++ x)%string.
Proof.
  unfold compare_feedback.
  generalize rel_abs_tol_int, rel_abs_tol. intros ti t.
  destruct (py_round correct) as [n|]; cbn [bind]; [|discriminate].
  destruct (float_of_int n) as [fn|]; cbn [bind]; [|discriminate].
  destruct (math_isclose correct fn ti ti) as [[]|]; cbn [bind];
    [ destruct (math_isclose user_val fn t t) as [[]|]
    | destruct (math_isclose user_val correct t t) as [[]|]
    | ];
    cbn [bind]; intros E; inversion E; auto;
    right; right; eexists; reflexivity.
Qed.

(** X15.  When [on_check_answer] returns, its feedback is shown with
    [st.success] exactly for the two "Correct" verdicts, with
    [st.error] for an "Incorrect" verdict and for an answer that could
    not be parsed, and with [st.info] for its two prompts; it is never
    left empty. *)
Theorem check_answer_feedback_widget (H : host) (st : session_state) :
  snd (on_check_answer H st) = Returned ->
  let fb := feedback (fst (on_check_answer H st)) in
  (display_feedback fb = StSuccess
   /\ (fb = "✅ Correct!" \/ fb = "✅ Correct (within tolerance)!"))
  \/ (display_feedback fb = StError
      /\ (fb = could_not_parse
          \/ exists x,
               fb = ("❌ Incorrect. The correct answer is " ++ x)%string))
  \/ (display_feedback fb = StInfo
      /\ (fb = "Please type an answer first."
          \/ fb = "No valid equation is set.")).
Proof.
  assert (V : forall v,
            snd (check_value st v) = Returned ->
            let fb := feedback (fst (check_value st v)) in
            (display_feedback fb = StSuccess
             /\ (fb = "✅ Correct!" \/ fb = "✅ Correct (within tolerance)!"))
            \/ (display_feedback fb = StError
                /\ (fb = could_not_parse
                    \/ exists x,
                         fb = ("❌ Incorrect. The correct answer is "
                               ++ x)%string))
            \/ (display_feedback fb = StInfo
                /\ (fb = "Please type an answer first."
                    \/ fb = "No valid equation is set."))).
  { intros v. unfold check_value.
    destruct (correct_answer st) as [c|].
    - destruct (compare_feedback c v) as [fb|e] eqn:E; [|discriminate].
      intros _. cbn [fst set_feedback feedback].
      destruct (compare_feedback_shapes c v fb E) as [->|[->|[x ->]]].
      + left. split; [reflexivity|auto].
      + left. split; [reflexivity|auto].
      + right. left. split; [reflexivity|eauto].
    - intros _. right. right. split; [reflexivity|auto]. }
  unfold on_check_answer.
  destruct (String.eqb (strip (user_answer_input st)) EmptyString).
  { intros _. right. right. split; [reflexivity|auto]. }
  destruct (safe_eval H (user_answer_input st)) as [v|[m|m|m|m]];
    try discriminate.
  - apply V.
  - destruct (float_of_str H (user_answer_input st)) as [v|]; [apply V|].
    intros _. right. left. split; [reflexivity|auto].
Qed.

Lemma check_answer_feedback_widget_witness :
  display_feedback
    (feedback (fst (on_check_answer ref_host
                      (locked "2+2" (lit "4.0") "2+2" "2*2"))))
  = StSuccess.
Proof.
  assert (R : snd (on_check_answer ref_host
                     (locked "2+2" (lit "4.0") "2+2" "2*2")) = Returned)
    by (vm_compute; reflexivity).
  destruct (check_answer_feedback_widget ref_host _ R)
    as [[D _]|[[D _]|[D _]]];
    [exact D | exfalso | exfalso]; vm_compute in D; discriminate.
Defined.

(** X16.  [on_set_equation] ends with the error widget exactly when the
    stripped input is not blank and [safe_eval] raised a [ValueError]
    on it, and then nothing is locked any more. *)
Theorem set_equation_error_widget (H : host) (st : session_state) :
  snd (on_set_equation H st) = Returned ->
  (display_feedback (feedback (fst (on_set_equation H st))) = StError
   <-> String.eqb (strip (eq_input st)) EmptyString = false
       /\ exists m, safe_eval H (strip (eq_input st)) = Raise (ValueError m))
  /\ (display_feedback (feedback (fst (on_set_equation H st))) = StError ->
      correct_answer (fst (on_set_equation H st)) = None
      /\ eq_text (fst (on_set_equation H st)) = EmptyString).
Proof.
  unfold on_set_equation.
  destruct (String.eqb (strip (eq_input st)) EmptyString).
  { intros _. cbn [fst set_feedback feedback]. split.
    - split; [discriminate|intros [B _]; discriminate].
    - discriminate. }
  destruct (safe_eval H (strip (eq_input st))) as [v|[m|m|m|m]];
    try discriminate; intros _; cbn [fst feedback correct_answer eq_text].
  - split; [|discriminate].
    split; [discriminate|intros [_ [m E]]; discriminate].
  - split; [|intros _; split; reflexivity].
    split; [intros _; split; [reflexivity|eauto]|reflexivity].
Qed.

Lemma set_equation_error_widget_witness :
  display_feedback
    (feedback (fst (on_set_equation ref_host
                      (locked "2+2" (lit "4.0") " 2**20 " "4"))))
  = StError.
Proof.
  assert (R : snd (on_set_equation ref_host
                     (locked "2+2" (lit "4.0") " 2**20 " "4")) = Returned)
    by (vm_compute; reflexivity).
  destruct (set_equation_error_widget ref_host _ R) as [[_ Back] _].
  apply Back. split; [vm_compute; reflexivity|].
  eexists. vm_compute. reflexivity.
Defined.

(** ** The lock over a session *)

Lemma lock_consistent_ext (H : host) (st st' : session_state) :
  correct_answer st' = correct_answer st ->
  eq_text st' = eq_text st ->
  lock_consistent H st -> lock_consistent H st'.
Proof.
  unfold lock_consistent. intros -> ->. exact (fun c => c).
Qed.

Lemma handle_keeps_lock_consistent (H : host) (ev : event)
  (st : session_state) :
  lock_consistent H st -> lock_consistent H (handle H ev st).
Proof.
  intros C.
  assert (K : forall st',
            correct_answer st' = correct_answer st ->
            eq_text st' = eq_text st -> lock_consistent H st').
  { intros st' A T. apply (lock_consistent_ext H st); assumption. }
  destruct ev as [text|text| | |op r1 r2|]; cbn [handle].
  - apply K; reflexivity.
  - apply K; reflexivity.
  - unfold on_set_equation.
    destruct (String.eqb (strip (eq_input st)) EmptyString);
      [apply K; reflexivity|].
    destruct (safe_eval H (strip (eq_input st))) as [v|[m|m|m|m]] eqn:E;
      cbn [fst]; try exact E; try reflexivity; apply K; reflexivity.
  - destruct (on_check_answer_keeps_lock H st) as [A T].
    apply K; assumption.
  - unfold on_random_problem.
    destruct (safe_eval H (generate_easy_problem op r1 r2))
      as [v|[m|m|m|m]] eqn:E;
      cbn [fst]; try exact E; try reflexivity; apply K; reflexivity.
  - unfold show_correct_answer.
    destruct (correct_answer st) as [c|] eqn:A.
    + destruct (correct_answer_text c); cbn [fst]; apply K;
        cbn [set_feedback correct_answer eq_text]; auto.
    + apply K; cbn [fst set_feedback correct_answer eq_text]; auto.
Qed.

(** X17.  Whatever the user types and presses, starting from the defaults,
    the equation on display evaluates to the locked result, and nothing
    is displayed when nothing is locked. *)
Theorem session_lock_consistent (H : host) (evs : list event) :
  lock_consistent H (run H evs defaults).
Proof.
  assert (G : forall st, lock_consistent H st ->
                         lock_consistent H (run H evs st)).
  { induction evs as [|ev evs IH]; intros st C; cbn [run]; [exact C|].
    apply IH. apply handle_keeps_lock_consistent. exact C. }
  apply G. reflexivity.
Qed.

(** X18.  Pressing "Set equation" or "Check Answer" twice in a row leaves
    what pressing it once leaves. *)
Theorem callbacks_idempotent (H : host) (st : session_state) :
  on_set_equation H (fst (on_set_equation H st)) = on_set_equation H st
  /\ on_check_answer H (fst (on_check_answer H st)) = on_check_answer H st.
Proof.
  split.
  - unfold on_set_equation at 2 3.
    destruct (String.eqb (strip (eq_input st)) EmptyString) eqn:B.
    + unfold on_set_equation. cbn [fst set_feedback eq_input].
      rewrite B. reflexivity.
    + destruct (safe_eval H (strip (eq_input st))) as [v|[m|m|m|m]] eqn:E;
        unfold on_set_equation;
        cbn [fst set_feedback eq_input user_answer_input];
        rewrite B, E; reflexivity.
  - unfold on_check_answer at 2 3.
    destruct (String.eqb (strip (user_answer_input st)) EmptyString) eqn:B.
    + unfold on_check_answer. cbn [fst set_feedback user_answer_input].
      rewrite B. reflexivity.
    + assert (V : forall v,
                check_value (fst (check_value st v)) v = check_value st v).
      { intros v. unfold check_value at 2 3.
        destruct (correct_answer st) as [c|] eqn:A.
        - destruct (compare_feedback c v) as [fb|e] eqn:Cf;
            unfold check_value; cbn [fst set_feedback correct_answer];
            rewrite A, Cf; reflexivity.
        - unfold check_value. cbn [fst set_feedback correct_answer].
          rewrite A. reflexivity. }
      assert (U : forall v,
                user_answer_input (fst (check_value st v))
                = user_answer_input st).
      { intros v. unfold check_value.
        destruct (correct_answer st) as [c|]; [|reflexivity].
        destruct (compare_feedback c v); reflexivity. }
      destruct (safe_eval H (user_answer_input st)) as [v|[m|m|m|m]] eqn:E.
      * unfold on_check_answer. rewrite U, B, E. apply V.
      * destruct (float_of_str H (user_answer_input st)) as [v|] eqn:F.
        -- unfold on_check_answer. rewrite U, B, E, F. apply V.
        -- unfold on_check_answer.
           cbn [fst set_feedback user_answer_input].
           rewrite B, E, F. reflexivity.
      * unfold on_check_answer. cbn [fst]. rewrite B, E. reflexivity.
      * unfold on_check_answer. cbn [fst]. rewrite B, E. reflexivity.
      * unfold on_check_answer. cbn [fst]. rewrite B, E. reflexivity.
Qed.

(** ** Failures inside the allow-list *)

Section AllowedFailures.

Variable H : host.

Lemma eval_binop_numeric_messages (op : operator) (a b : float)
  (m : string) :
  _ALLOWED_BINOPS H op <> None ->
  eval_binop H op a b = Raise (ValueError m) -> In m numeric_messages.
Proof.
  intros A. unfold eval_binop.
  destruct (_ALLOWED_BINOPS H op) as [f|] eqn:Af; [|contradiction].
  do 2 (break_if; [intros E; inversion E; simpl; auto 10|]).
  intros E. apply finish_binop_message with (H := H) (op := op) in E;
    [|assumption].
  destruct E as [->|[->| ->]]; simpl; auto 10.
Qed.

(** X2.  On a tree within the allow-list, a [ValueError] is a numeric
    failure: a guard of the power, a division by zero, a result out of
    range, or a domain error of the C library; never "unsupported" or
    "only numeric constants". *)
Theorem allowed_tree_failures (n : node) (m : string) :
  allowed n = true ->
  _eval H n = Raise (ValueError m) ->
  In m numeric_messages.
Proof.
  induction n as [body IH|value|op operand IH|l IHl op r IHr|kind];
    cbn [_eval allowed].
  - exact IH.
  - destruct value; try discriminate; intros _;
      try discriminate.
    unfold float_of_int. break_if; discriminate.
  - destruct op; try discriminate; cbn [_ALLOWED_UNARYOPS]; intros A;
      (destruct (_eval H operand) as [x|e']; cbn [bind]; [discriminate|]);
      intros E; inversion E; subst e'; apply IH; auto.
  - intros A.
    assert (Al : allowed l = true /\ allowed r = true
                 /\ _ALLOWED_BINOPS H op <> None).
    { destruct op; try discriminate;
        apply andb_true_iff in A; destruct A as [A1 A2];
        repeat split; try assumption; discriminate. }
    destruct Al as (A1 & A2 & Ao).
    destruct (_eval H l) as [a|e1]; cbn [bind];
      [|intros E; inversion E; subst e1; apply IHl; auto].
    destruct (_eval H r) as [b|e2]; cbn [bind];
      [|intros E; inversion E; subst e2; apply IHr; auto].
    apply eval_binop_numeric_messages. exact Ao.
  - discriminate.
Qed.

End AllowedFailures.

Lemma allowed_tree_failures_witness :
  In "Division by zero." numeric_messages.
Proof.
  apply (allowed_tree_failures ref_host
           (BinOp (Constant (CInt 1)) Div (Constant (CInt 0))));
    vm_compute; reflexivity.
Defined.
